(** * The govulncheck scan-result pipeline of pkgsite-metrics

    A shallow embedding of [internal/govulncheckapi/result.go] and
    [internal/govulncheck/govulncheck.go], followed by the properties the
    specification states about them.

    Conventions of the embedding:
    - a Go [string] is a [string] (a sequence of bytes);
    - [int], [int64], [uint64] and [time.Duration] are [Z];
    - [float64] is the primitive binary64 type;
    - a pointer [*T] is [ptr T], that is [option T], with [nil] for [None]:
      dereferencing [nil] panics;
    - a slice [[]T] is [list T] (the nil slice is the empty list);
    - a function that can panic returns an [outcome];
    - a method that writes through its receiver is a function from the
      receiver's old value to its new value. *)

From Stdlib Require Import ZArith String Ascii List Bool Lia DecimalString.
From Stdlib Require Import Floats.PrimFloat Numbers.Cyclic.Int63.Uint63.
From ExtLib Require Import Structures.Monad Structures.MonadState.
From ExtLib Require Import Data.Monads.StateMonad.
Import ListNotations.
Import MonadNotation.

Local Open Scope string_scope.
Local Open Scope Z_scope.
Local Open Scope monad_scope.

(** ** The parts of the Go runtime and standard library the code relies on *)

Module Go.

Definition ptr (A : Type) : Type := option A.
Definition nil {A : Type} : ptr A := None.

(** Run-time panics. *)
Inductive panic : Type :=
| IndexOutOfRange (index length : nat)
| NilDereference.

Inductive outcome (A : Type) : Type :=
| Returns (a : A)
| Panics (p : panic).
Arguments Returns {A} a.
Arguments Panics {A} p.

(** [error]: a non-nil error value has a text and may wrap another error.
    The nil error is [nil] of [ptr error]. *)
Inductive error : Type :=
| errorString (text : string)
| wrapError (text : string) (wrapped : error).

Definition Error (e : error) : string :=
  match e with errorString text | wrapError text _ => text end.

(** [errors.New] *)
Definition errors_New (text : string) : error := errorString text.

Definition float64 : Type := PrimFloat.float.

(** Conversion [float64(n)] of an integer that fits 63 bits. *)
Definition float64_of_int (n : Z) : float64 :=
  match n with
  | Z0 => PrimFloat.zero
  | Zpos _ => PrimFloat.of_uint63 (Uint63.of_Z n)
  | Zneg _ => PrimFloat.opp (PrimFloat.of_uint63 (Uint63.of_Z (- n)))
  end.

(** [time.Duration]: a count of nanoseconds. *)
Definition Duration : Type := Z.
Definition Second : Duration := 1000000000.

(** [Duration.Seconds]:
    [sec := d / Second; nsec := d % Second;
     return float64(sec) + float64(nsec)/1e9] *)
Definition Duration_Seconds (d : Duration) : float64 :=
  let sec := Z.quot d Second in
  let nsec := Z.rem d Second in
  PrimFloat.add (float64_of_int sec)
                (PrimFloat.div (float64_of_int nsec) 1e9%float).

(** [time.Time], as the instant it denotes: seconds and nanoseconds.
    The presentation location and the monotonic reading that a value of
    [time.Now] carries are not part of the instant and are left out;
    timestamps read from the database or from the scanner's output have
    no monotonic reading. *)
Record Time : Type := mkTime { sec : Z; nsec : Z }.

(** [Time.Equal]: "reports whether t and u represent the same time
    instant"; it compares [t.sec() == u.sec() && t.nsec() == u.nsec()]. *)
Definition Time_Equal (t u : Time) : bool :=
  (sec t =? sec u) && (nsec t =? nsec u).

(** The byte 92, the backslash. *)
Definition backslash : ascii := "092"%char.

(** [filepath.Separator], fixed by the operating system the program is
    built for: the backslash on Windows, the slash elsewhere. *)
Definition Separator (goos : string) : ascii :=
  if (goos =? "windows")%string then backslash else "/"%char.

(** [strings.ReplaceAll(s, string(old), string(new))] for one-byte
    [old] and [new]. *)
Fixpoint ReplaceAll (s : string) (old new : ascii) : string :=
  match s with
  | EmptyString => EmptyString
  | String c rest =>
      String (if Ascii.eqb c old then new else c) (ReplaceAll rest old new)
  end.

(** [filepath.ToSlash]:
    [if Separator == '/' { return path }
     return strings.ReplaceAll(path, string(Separator), "/")] *)
Definition ToSlash (goos : string) (path : string) : string :=
  if Ascii.eqb (Separator goos) "/"%char then path
  else ReplaceAll path (Separator goos) "/"%char.

End Go.
Import Go.

(** ** Package govulncheckapi: the scanner's output structures *)

Module govulncheckapi.

Module Position.
Record t : Type := mk {
  Filename : string;
  Offset : Z;
  Line : Z;
  Column : Z
}.
End Position.

Module Frame.
Record t : Type := mk {
  Module_ : string;   (* field Module; the word is reserved here *)
  Version : string;
  Package : string;
  Function : string;
  Receiver : string;
  Position : ptr Position.t
}.
End Frame.

Module Finding.
Record t : Type := mk {
  OSV : string;
  FixedVersion : string;
  Trace : list (ptr Frame.t)
}.
End Finding.

Module Progress.
Record t : Type := mk {
  Timestamp : ptr Time;
  Message : string
}.
End Progress.

Module Config.
Record t : Type := mk {
  ProtocolVersion : string;
  ScannerName : string;
  ScannerVersion : string;
  DB : string;
  DBLastModified : ptr Time;
  GoVersion : string;
  GOOS : string;
  GOARCH : string;
  ImportsOnly : bool
}.
End Config.

(** [Message]: "an entry in the output stream. It will always have
    exactly one field filled in."  The type [osv.Entry] of the third
    field is declared in a package that is not among the sources; it is
    the parameter [Entry]. *)
Module Message.
Record t (Entry : Type) : Type := mk {
  Config : ptr Config.t;
  Progress : ptr Progress.t;
  OSV : ptr Entry;
  Finding : ptr Finding.t
}.
Arguments mk {Entry} _ _ _ _.
Arguments Config {Entry} _.
Arguments Progress {Entry} _.
Arguments OSV {Entry} _.
Arguments Finding {Entry} _.
End Message.

Definition ProtocolVersion : string := "v0.1.0".

End govulncheckapi.

(** ** Package govulncheck *)

Module govulncheck.

Import govulncheckapi.

Definition ModeBinary : string := "BINARY".
Definition ModeGovulncheck : string := "GOVULNCHECK".
Definition FlagBinary : string := "binary".
Definition FlagSource : string := "source".
Definition TableName : string := "govulncheck".

Module Vuln.
Record t : Type := mk {
  ID : string;
  PackagePath : string;
  ModulePath : string;
  Version : string;
  Called : bool
}.
End Vuln.

(** [ConvertGovulncheckFinding]:
    [vulnerableFrame := f.Trace[0]] panics on an empty trace (index out
    of range); reading a field of [f] or of [vulnerableFrame] panics when
    the pointer is nil. *)
Definition ConvertGovulncheckFinding (f : ptr Finding.t) : outcome (ptr Vuln.t) :=
  match f with
  | None => Panics NilDereference
  | Some f =>
      match Finding.Trace f with
      | [] => Panics (IndexOutOfRange 0 0)
      | None :: _ => Panics NilDereference
      | Some vulnerableFrame :: _ =>
          let vuln := Vuln.mk (Finding.OSV f)
                              (Frame.Package vulnerableFrame)
                              (Frame.Module_ vulnerableFrame)
                              (Frame.Version vulnerableFrame)
                              false in
          let vuln :=
            if negb (Frame.Function vulnerableFrame =? "")%string
            then Vuln.mk (Vuln.ID vuln) (Vuln.PackagePath vuln)
                         (Vuln.ModulePath vuln) (Vuln.Version vuln) true
            else vuln in
          Returns (Some vuln)
      end
  end.

Module WorkVersion.
Record t : Type := mk {
  GoVersion : string;
  WorkerVersion : string;
  SchemaVersion : string;
  VulnDBLastModified : Time
}.

(** [func (v1 *WorkVersion) Equal(v2 *WorkVersion) bool] *)
Definition Equal (v1 v2 : ptr t) : bool :=
  match v1, v2 with
  | Some v1, Some v2 =>
      (GoVersion v1 =? GoVersion v2)%string &&
      (WorkerVersion v1 =? WorkerVersion v2)%string &&
      (SchemaVersion v1 =? SchemaVersion v2)%string &&
      Time_Equal (VulnDBLastModified v1) (VulnDBLastModified v2)
  | _, _ => false
  end.
End WorkVersion.

(** [bq.NullFloat64] *)
Module NullFloat64.
Record t : Type := mk { Float64 : float64; Valid : bool }.
End NullFloat64.

Module Result.
Record t : Type := mk {
  CreatedAt : Time;
  ModulePath : string;
  Version : string;
  Suffix : string;
  SortVersion : string;
  ImportedBy : Z;
  Error : string;
  ErrorCategory : string;
  CommitTime : Time;
  ScanSeconds : float64;
  BinaryBuildSeconds : NullFloat64.t;
  ScanMemory : Z;
  ScanMode : string;
  WorkVersion : WorkVersion.t;   (* the embedded struct *)
  Vulns : list (ptr Vuln.t)
}.

(** [func (vr *Result) SetUploadTime(t time.Time)] *)
Definition SetUploadTime (vr : t) (tm : Time) : t :=
  mk tm (ModulePath vr) (Version vr) (Suffix vr) (SortVersion vr)
     (ImportedBy vr) (Error vr) (ErrorCategory vr) (CommitTime vr)
     (ScanSeconds vr) (BinaryBuildSeconds vr) (ScanMemory vr)
     (ScanMode vr) (WorkVersion vr) (Vulns vr).

(** [func (vr *Result) AddError(err error)].  [derrors.CategorizeError]
    belongs to a package that is not among the sources; it is the
    parameter [CategorizeError]. *)
Definition AddError (CategorizeError : error -> string)
           (vr : t) (err : ptr error) : t :=
  match err with
  | None => vr
  | Some err =>
      let vr :=
        mk (CreatedAt vr) (ModulePath vr) (Version vr) (Suffix vr)
           (SortVersion vr) (ImportedBy vr) (Go.Error err)
           (ErrorCategory vr) (CommitTime vr) (ScanSeconds vr)
           (BinaryBuildSeconds vr) (ScanMemory vr) (ScanMode vr)
           (WorkVersion vr) (Vulns vr) in
      mk (CreatedAt vr) (ModulePath vr) (Version vr) (Suffix vr)
         (SortVersion vr) (ImportedBy vr) (Error vr)
         (CategorizeError err) (CommitTime vr) (ScanSeconds vr)
         (BinaryBuildSeconds vr) (ScanMemory vr) (ScanMode vr)
         (WorkVersion vr) (Vulns vr)
  end.
End Result.

(** The invariant of the specification's data model: "if Error is
    non-empty, Vulns must be empty". *)
Definition ErrorImpliesNoVulns (r : Result.t) : Prop :=
  Result.Error r <> "" -> Result.Vulns r = [].

(** [WorkState] *)
Module WorkState.
Record t : Type := mk {
  WorkVersion : ptr WorkVersion.t;
  ErrorCategory : string
}.
End WorkState.

Module ScanStats.
Record t : Type := mk {
  ScanSeconds : float64;
  ScanMemory : Z;
  BuildTime : Duration
}.
End ScanStats.

End govulncheck.

(** ** Running the scanner: the world [RunGovulncheckCmd] acts on *)

Module exec.

(** [exec.Cmd], as far as the code uses it. *)
Module Cmd.
Record t : Type := mk { Path : string; Args : list string }.
End Cmd.

(** [exec.Command(name, arg...)]: [Args] holds the name followed by the
    arguments. *)
Definition Command (name : string) (arg : list string) : Cmd.t :=
  Cmd.mk name (name :: arg).

(** How a run of a command ended: the process exited with a status, or it
    could not be started or its output could not be copied. *)
Inductive Ending : Type :=
| Exited (status : Z)
| Failed (err : error).

(** What running a command to its end leaves behind: how it ended, what it
    wrote to the two buffers, how long [Run] blocked (nanoseconds of the
    monotonic clock) and the peak resident memory the operating system
    reports for it. *)
Module Completion.
Record t : Type := mk {
  ending : Ending;
  Stdout : string;
  Stderr : string;
  elapsed : Duration;
  Maxrss : Z
}.
End Completion.

(** [*exec.ExitError], the error of a run that exited with a non-zero
    status. *)
Definition ExitError (status : Z) : error :=
  errorString ("exit status " ++ NilZero.string_of_int (Z.to_int status)).

(** The value of [cmd.Run()]: nil exactly when the command ran and exited
    with status zero. *)
Definition Run_err (c : Completion.t) : ptr error :=
  match Completion.ending c with
  | Exited status => if status =? 0 then nil else Some (ExitError status)
  | Failed err => Some err
  end.

End exec.

Module govulncheck_run.

Import govulncheckapi govulncheck exec.

(** Calls that leave the program, in the order they happen. *)
Inductive Event : Type :=
| EvRun (c : Cmd.t)
| EvGetMemoryUsage (c : Cmd.t)
| EvHandleJSON (input : string).

(** The state the function runs in: the monotonic clock and the calls made
    so far. *)
Record World : Type := mkWorld { clock : Z; events : list Event }.

(** What the function takes from its surroundings: the operating system
    it is built for and runs on, the package variable [getMemoryUsage],
    and the metrics handler and stream decoder ([NewMetricsHandler],
    [govulncheckapi.HandleJSON], [handler.Findings]), whose code is not
    among the sources: they are parameters, over any type [Handler] of
    handler states. *)
Record Env (Handler : Type) : Type := mkEnv {
  GOOS : string;
  os_run : Cmd.t -> Completion.t;
  getMemoryUsage : Cmd.t -> Completion.t -> Z;
  NewMetricsHandler : Handler;
  HandleJSON : string -> Handler -> ptr error * Handler;
  Findings : Handler -> list (ptr Finding.t)
}.
Arguments GOOS {Handler} _.
Arguments os_run {Handler} _ _.
Arguments getMemoryUsage {Handler} _ _ _.
Arguments NewMetricsHandler {Handler} _.
Arguments HandleJSON {Handler} _ _ _.
Arguments Findings {Handler} _ _.

(** The value the source gives [getMemoryUsage] ("overridden with a
    Unix-specific function on Linux"): [return 0]. *)
Definition getMemoryUsage_default (c : Cmd.t) (done : Completion.t) : Z := 0.

Definition log (e : Event) : state World unit :=
  modify (fun w => mkWorld (clock w) (events w ++ [e])) ;; ret tt.

(** [time.Now()], of which only the monotonic reading is used. *)
Definition time_Now : state World Z :=
  w <- get ;; ret (clock w).

(** [time.Since(start)] *)
Definition time_Since (start : Z) : state World Duration :=
  now <- time_Now ;; ret (now - start).

(** [cmd.Run()]: blocks until the process is over. *)
Definition Cmd_Run {Handler} (env : Env Handler) (c : Cmd.t)
  : state World Completion.t :=
  log (EvRun c) ;;
  let done := os_run env c in
  modify (fun w => mkWorld (clock w + Completion.elapsed done) (events w)) ;;
  ret done.

Section RunGovulncheckCmd.

Context {Handler : Type} (env : Env Handler).

Definition setScanSeconds (s : ScanStats.t) (x : float64) : ScanStats.t :=
  ScanStats.mk x (ScanStats.ScanMemory s) (ScanStats.BuildTime s).

Definition setScanMemory (s : ScanStats.t) (x : Z) : ScanStats.t :=
  ScanStats.mk (ScanStats.ScanSeconds s) x (ScanStats.BuildTime s).

(** The first lines of [RunGovulncheckCmd] compute the command to run
    from the arguments alone; they are named here after the local
    variables [uri], [args] and [govulncheckCmd] they define. *)
Definition uri (vulndbDir : string) : string :=
  let uri := "file://" ++ vulndbDir in
  if (GOOS env =? "windows")%string
  then "file:///" ++ ToSlash (GOOS env) vulndbDir
  else uri.

Definition args (modeFlag pattern moduleDir vulndbDir : string) : list string :=
  let args := ["-mode"; modeFlag; "-json"; "-db"; uri vulndbDir] in
  let args := if negb (moduleDir =? "")%string
              then (args ++ ["-C"; moduleDir])%list
              else args in
  (args ++ [pattern])%list.

Definition govulncheckCmd
           (govulncheckPath modeFlag pattern moduleDir vulndbDir : string) : Cmd.t :=
  Command govulncheckPath (args modeFlag pattern moduleDir vulndbDir).

(** [RunGovulncheckCmd].  The result is what the function returns (the
    findings and the error) or the panic it ends in, together with the
    [ScanStats] that [stats] points to afterwards. *)
Definition RunGovulncheckCmd
           (govulncheckPath modeFlag pattern moduleDir vulndbDir : string)
           (stats : ptr ScanStats.t)
  : state World (outcome (list (ptr Finding.t) * ptr error) * ptr ScanStats.t) :=
  let govulncheckCmd :=
    govulncheckCmd govulncheckPath modeFlag pattern moduleDir vulndbDir in
  start <- time_Now ;;
  done <- Cmd_Run env govulncheckCmd ;;
  match Run_err done with
  | Some _ =>
      ret (Returns ([], Some (errors_New (Completion.Stderr done))), stats)
  | None =>
      d <- time_Since start ;;
      match stats with
      | None => ret (Panics NilDereference, stats)
      | Some s =>
          let s := setScanSeconds s (Duration_Seconds d) in
          log (EvGetMemoryUsage govulncheckCmd) ;;
          let s := setScanMemory s (getMemoryUsage env govulncheckCmd done) in
          let handler := NewMetricsHandler env in
          log (EvHandleJSON (Completion.Stdout done)) ;;
          let '(err, handler) :=
            HandleJSON env (Completion.Stdout done) handler in
          match err with
          | Some err => ret (Returns ([], Some err), Some s)
          | None => ret (Returns (Findings env handler, nil), Some s)
          end
      end
  end.

End RunGovulncheckCmd.

End govulncheck_run.

(** ** The message protocol decoder

    [govulncheckapi.HandleJSON], which reads the scanner's stream, is not
    among the sources.  The record [Message.t] above is; what decoding does
    with it is taken from the specification (4.1 and 9). *)

Module decoder.

Import govulncheckapi.

Section Decoder.

Context {Entry : Type}.

(** Modelled from the spec: the two protocol-layer errors of the decoder
    (the decoding function is missing from the sources). *)
Inductive DecodeError : Type :=
| MalformedMessageError
| TruncatedStreamError.

(** Modelled from the spec: a decoded message as "a tagged variant over
    four payload kinds" (the decoding function is missing from the
    sources). *)
Inductive Payload : Type :=
| IsConfig (c : Config.t)
| IsProgress (p : Progress.t)
| IsOSV (e : Entry)
| IsFinding (f : Finding.t).

(** Modelled from the spec: one element of the stream is a message read
    into the four optional fields, or a piece that "is not valid
    structured data" (the stream reader is missing from the sources). *)
Inductive Element : Type :=
| Structured (m : Message.t Entry)
| Invalid.

(** Modelled from the spec: the stream is "a sequence of
    independently-decodable structured messages", which may end inside a
    message (the stream reader is missing from the sources). *)
Record Stream : Type := mkStream {
  elements : list Element;
  truncated : bool
}.

Definition filled {A : Type} (p : ptr A) : nat :=
  match p with Some _ => 1%nat | None => 0%nat end.

(** The number of fields of a [Message] that are filled in. *)
Definition populated (m : Message.t Entry) : nat :=
  (filled (Message.Config m) + filled (Message.Progress m) +
   filled (Message.OSV m) + filled (Message.Finding m))%nat.

(** Modelled from the spec: "Decoding fails with a MalformedMessageError
    if a message decodes to zero or more than one populated field"
    (the decoding function is missing from the sources). *)
Definition decodeMessage (m : Message.t Entry) : DecodeError + Payload :=
  match Message.Config m, Message.Progress m, Message.OSV m, Message.Finding m with
  | Some c, None, None, None => inr (IsConfig c)
  | None, Some p, None, None => inr (IsProgress p)
  | None, None, Some e, None => inr (IsOSV e)
  | None, None, None, Some f => inr (IsFinding f)
  | _, _, _, _ => inl MalformedMessageError
  end.

(** Modelled from the spec: the elements are decoded one after the other,
    in order and without filtering; the first one that is not valid
    structured data or not a well-formed message ends decoding with
    [MalformedMessageError] (the decoding function is missing from the
    sources). *)
Fixpoint decodeElements (es : list Element) : DecodeError + list Payload :=
  match es with
  | [] => inr []
  | Invalid :: _ => inl MalformedMessageError
  | Structured m :: rest =>
      match decodeMessage m with
      | inl e => inl e
      | inr p =>
          match decodeElements rest with
          | inl e => inl e
          | inr ps => inr (p :: ps)
          end
      end
  end.

(** Modelled from the spec: "On end-of-stream, decoding completes
    normally; a truncated message mid-stream is a TruncatedStreamError"
    (the decoding function is missing from the sources). *)
Definition Decode (s : Stream) : DecodeError + list Payload :=
  match decodeElements (elements s) with
  | inl e => inl e
  | inr ps => if truncated s then inl TruncatedStreamError else inr ps
  end.

End Decoder.

Arguments DecodeError : clear implicits.
Arguments Payload : clear implicits.
Arguments Element : clear implicits.
Arguments Stream : clear implicits.

End decoder.

(** ** The result aggregator

    The code that turns what the scan runner returns into a [Result], and
    [derrors.CategorizeError], are not among the sources.  What the
    statements about "the resulting record" need of them is taken from the
    specification (3, 4.5 and 7). *)

Module aggregator.

Import govulncheckapi govulncheck.

(** Modelled from the spec: [derrors.CategorizeError], which is missing
    from the sources, derives from the error of a scan "a coarse
    classification", "a short classification string"; a failed scan is
    recorded with a "non-empty error_category". *)
Definition Categorizes (CategorizeError : error -> string) : Prop :=
  forall err : error, CategorizeError err <> "".

(** Modelled from the spec: the findings go through the Finding
    Normalizer one by one, in order ("Message Protocol Decoder -> Finding
    Normalizer -> Result Aggregator"); the code that calls
    [ConvertGovulncheckFinding] is missing from the sources. *)
Fixpoint normalize (findings : list (ptr Finding.t))
  : outcome (list (ptr Vuln.t)) :=
  match findings with
  | [] => Returns []
  | f :: rest =>
      match ConvertGovulncheckFinding f with
      | Panics p => Panics p
      | Returns v =>
          match normalize rest with
          | Panics p => Panics p
          | Returns vs => Returns (v :: vs)
          end
      end
  end.

(** Modelled from the spec: the Result Aggregator "combines target
    identity, the chosen mode, captured stats, any top-level error (with a
    derived error category ...), the current WorkVersion, and the
    normalized Vuln list into a Result.  Enforces the invariant in 3
    (error present => empty Vuln list)"; the code that assembles a Result
    is missing from the sources.  [target] carries the identity, the mode
    and the work version; [stats] is the [ScanStats] the scan runner was
    given, as it is after the run. *)
Definition Aggregate (CategorizeError : error -> string)
           (target : Result.t) (stats : ScanStats.t)
           (findings : list (ptr Finding.t)) (err : ptr error)
  : outcome Result.t :=
  match normalize findings with
  | Panics p => Panics p
  | Returns vulns =>
      let vulns := match err with Some _ => [] | None => vulns end in
      Returns
        (Result.AddError CategorizeError
           (Result.mk (Result.CreatedAt target) (Result.ModulePath target)
                      (Result.Version target) (Result.Suffix target)
                      (Result.SortVersion target) (Result.ImportedBy target)
                      (Result.Error target) (Result.ErrorCategory target)
                      (Result.CommitTime target)
                      (ScanStats.ScanSeconds stats)
                      (Result.BinaryBuildSeconds target)
                      (ScanStats.ScanMemory stats)
                      (Result.ScanMode target) (Result.WorkVersion target)
                      vulns)
           err)
  end.

End aggregator.

(** ** Concrete values used to exercise the statements below *)

Module Samples.

Import govulncheckapi govulncheck exec govulncheck_run decoder.

Definition frame_Do : Frame.t :=
  Frame.mk "example.com/m" "v1.2.0" "example.com/m/pkg" "Do" "" nil.

Definition frame_imported : Frame.t :=
  Frame.mk "stdlib" "" "net/http" "" "" nil.

(** The finding of the specification's end-to-end scenario. *)
Definition finding_called : Finding.t :=
  Finding.mk "GO-2023-0001" "" [Some frame_Do].

Definition finding_imported : Finding.t :=
  Finding.mk "GO-2023-0002" "" [Some frame_imported; Some frame_Do].

Definition finding_no_trace : Finding.t :=
  Finding.mk "GO-2023-0003" "" [].

(** What decoding [{"osv":"GO-2023-0004","trace":[null]}] gives. *)
Definition finding_nil_frame : Finding.t :=
  Finding.mk "GO-2023-0004" "" [nil].

Definition finding_nil_then_frame : Finding.t :=
  Finding.mk "GO-2023-0005" "" [nil; Some frame_Do].

Definition wv : WorkVersion.t :=
  WorkVersion.mk "go1.21.0" "v0.4.1" "a1b2c3" (mkTime 1700000000 0).

(** [wv], with a database modified one nanosecond later. *)
Definition wv_later : WorkVersion.t :=
  WorkVersion.mk "go1.21.0" "v0.4.1" "a1b2c3" (mkTime 1700000000 1).

Definition vuln : Vuln.t :=
  Vuln.mk "GO-2023-0001" "example.com/m/pkg" "example.com/m" "v1.2.0" true.

Definition result_clean : Result.t :=
  Result.mk (mkTime 1700000100 0) "example.com/m" "v1.2.0" "" "" 3 "" ""
            (mkTime 1690000000 0) PrimFloat.zero
            (NullFloat64.mk PrimFloat.zero false) 0 ModeGovulncheck wv [].

Definition result_with_vuln : Result.t :=
  Result.mk (mkTime 1700000100 0) "example.com/m" "v1.2.0" "" "" 3 "" ""
            (mkTime 1690000000 0) PrimFloat.zero
            (NullFloat64.mk PrimFloat.zero false) 0 ModeGovulncheck wv
            [Some vuln].

(** A stand-in for [derrors.CategorizeError]. *)
Definition categorize (err : error) : string := "MISC".

Definition stats_zero : ScanStats.t := ScanStats.mk PrimFloat.zero 0 0.

(** A scanner that fails after five seconds: exit status 1, nothing
    usable on standard output, "db unreachable" on standard error. *)
Definition db_unreachable : Completion.t :=
  Completion.mk (Exited 1) "{" "db unreachable" (5 * Second) 20480.

(** Surroundings in which every run ends like [db_unreachable]; the
    handler keeps the list of findings and the decoder finds none. *)
Definition env_failing (goos : string) : Env (list (ptr Finding.t)) :=
  mkEnv (list (ptr Finding.t)) goos (fun _ => db_unreachable)
        getMemoryUsage_default [] (fun _ h => (nil, h)) (fun h => h).

Definition world0 : World := mkWorld 0 [].

Definition msg_finding : Message.t string :=
  Message.mk nil nil nil (Some finding_called).

Definition msg_progress : Message.t string :=
  Message.mk nil (Some (Progress.mk nil "Scanning")) nil nil.

Definition msg_empty : Message.t string :=
  Message.mk nil nil nil nil.

Definition msg_two : Message.t string :=
  Message.mk nil (Some (Progress.mk nil "Scanning")) nil (Some finding_called).

Definition stream_with_empty : Stream string :=
  mkStream [Structured msg_progress; Structured msg_empty; Structured msg_finding]
           false.

Definition stream_with_two : Stream string :=
  mkStream [Structured msg_two] true.

End Samples.

(** ** The rest of package govulncheck: requests and sandbox responses *)

Module strings.

(** [strings.HasPrefix]:
    [return len(s) >= len(prefix) && s[:len(prefix)] == prefix] *)
Definition HasPrefix (s prefix : string) : bool :=
  (String.length prefix <=? String.length s)%nat &&
  (substring 0 (String.length prefix) s =? prefix)%string.

(** [strings.TrimPrefix]:
    [if HasPrefix(s, prefix) { return s[len(prefix):] }; return s] *)
Definition TrimPrefix (s prefix : string) : string :=
  if HasPrefix s prefix
  then substring (String.length prefix)
                 (String.length s - String.length prefix) s
  else s.

End strings.

Module http.

(** [url.URL] and [http.Request], as far as the code reads them. *)
Module URL.
Record t : Type := mk { Path : string; RawQuery : string }.
End URL.

Module Request.
Record t : Type := mk { Method : string; URL : ptr URL.t }.
End Request.

End http.

Module govulncheck_request.

Module EnqueueQueryParams.
Record t : Type := mk {
  Suffix : string;
  Mode : string;
  Min : Z;
  File : string
}.
End EnqueueQueryParams.

Module QueryParams.
Record t : Type := mk {
  ImportedBy : Z;
  Mode : string;
  Insecure : bool;
  Serve : bool
}.
End QueryParams.

(** [Request] embeds [scan.ModuleURLPath], a struct of a package that is
    not among the sources: its type is the parameter [MUP], and its fields
    [Module] and [Version], which [Name] reads, are the parameters
    [Module_] and [Version]. *)
Module Request.
Section Request.
Context {MUP : Type}.
Variables Module_ Version : MUP -> string.

Record t : Type := mk {
  ModuleURLPath : MUP;
  QueryParams : QueryParams.t
}.

(** [func (r *Request) Name() string { return r.Module + "@" + r.Version }] *)
Definition Name (r : t) : string :=
  Module_ (ModuleURLPath r) ++ "@" ++ Version (ModuleURLPath r).

End Request.
Arguments t : clear implicits.
End Request.

(** The byte 34, the double quote. *)
Definition doublequote : ascii := "034"%char.

(** The text [missing or negative "importedby" query param]. *)
Definition missing_importedby : string :=
  "missing or negative " ++ String doublequote "importedby"
  ++ String doublequote " query param".

Section ParseRequest.

Context {MUP : Type}.

(** [scan.ParseModuleURLPath] and [scan.ParseParams] belong to a package
    that is not among the sources; they are parameters.  [ParseParams]
    writes through its second argument: it is given the struct and
    returns it as it is afterwards. *)
Variable ParseModuleURLPath : string -> MUP * ptr error.
Variable ParseParams :
  http.Request.t -> QueryParams.t -> ptr error * QueryParams.t.

(** [ParseRequest] *)
Definition ParseRequest (r : ptr http.Request.t) (prefix : string)
  : outcome (ptr (Request.t MUP) * ptr error) :=
  match r with
  | None => Panics NilDereference
  | Some r =>
      match http.Request.URL r with
      | None => Panics NilDereference
      | Some URL =>
          let '(mp, err) :=
            ParseModuleURLPath (strings.TrimPrefix (http.URL.Path URL) prefix) in
          match err with
          | Some err => Returns (nil, Some err)
          | None =>
              let rp := QueryParams.mk (-1) "" false false in
              let '(err, rp) := ParseParams r rp in
              match err with
              | Some err => Returns (nil, Some err)
              | None =>
                  if QueryParams.ImportedBy rp <? 0
                  then Returns (nil, Some (errors_New missing_importedby))
                  else Returns (Some (Request.mk mp rp), nil)
              end
          end
      end
  end.

End ParseRequest.

End govulncheck_request.

Module govulncheck_sandbox.

Import govulncheckapi govulncheck.

Module SandboxResponse.
Record t : Type := mk {
  Findings : list (ptr Finding.t);
  Stats : ScanStats.t
}.
(** The zero value, what [var res SandboxResponse] declares. *)
Definition zero : t := mk [] (ScanStats.mk PrimFloat.zero 0 0).
End SandboxResponse.

(** [var e struct{ Error string }] *)
Module ErrorField.
Record t : Type := mk { Error : string }.
Definition zero : t := mk "".
End ErrorField.

Module ComparePair.
Record t : Type := mk {
  BinaryResults : SandboxResponse.t;
  SourceResults : SandboxResponse.t;
  Error : string
}.
End ComparePair.

(** [CompareResponse].  The code never looks into the map
    [FindingsForMod]; the type of maps from strings is the parameter
    [StringMap]. *)
Module CompareResponse.
Record t (StringMap : Type -> Type) : Type := mk {
  FindingsForMod : StringMap (ptr ComparePair.t)
}.
Arguments mk {StringMap} _.
Arguments FindingsForMod {StringMap} _.
End CompareResponse.

Section Unmarshal.

(** [json.Unmarshal(output, &v)] at the types the code uses it at: given
    the bytes and the value [v] points to, it returns the error and the
    value afterwards.  The decoder itself is a parameter. *)
Variable Unmarshal_ErrorField :
  string -> ErrorField.t -> ptr error * ErrorField.t.
Variable Unmarshal_SandboxResponse :
  string -> SandboxResponse.t -> ptr error * SandboxResponse.t.

(** [UnmarshalSandboxResponse] *)
Definition UnmarshalSandboxResponse (output : string)
  : ptr SandboxResponse.t * ptr error :=
  let '(err, e) := Unmarshal_ErrorField output ErrorField.zero in
  match err with
  | Some err => (nil, Some err)
  | None =>
      if negb (ErrorField.Error e =? "")%string
      then (nil, Some (errors_New (ErrorField.Error e)))
      else
        let '(err, res) := Unmarshal_SandboxResponse output SandboxResponse.zero in
        match err with
        | Some err => (nil, Some err)
        | None => (Some res, nil)
        end
  end.

Context {StringMap : Type -> Type}.
Variable nil_map : StringMap (ptr ComparePair.t).
Variable Unmarshal_CompareResponse :
  string -> CompareResponse.t StringMap -> ptr error * CompareResponse.t StringMap.

(** [UnmarshalCompareResponse]; [nil_map] is the nil map of the zero
    [CompareResponse]. *)
Definition UnmarshalCompareResponse (output : string)
  : ptr (CompareResponse.t StringMap) * ptr error :=
  let '(err, e) := Unmarshal_ErrorField output ErrorField.zero in
  match err with
  | Some err => (nil, Some err)
  | None =>
      if negb (ErrorField.Error e =? "")%string
      then (nil, Some (errors_New (ErrorField.Error e)))
      else
        let '(err, res) :=
          Unmarshal_CompareResponse output (CompareResponse.mk nil_map) in
        match err with
        | Some err => (nil, Some err)
        | None => (Some res, nil)
        end
  end.

End Unmarshal.

End govulncheck_sandbox.

(** ** Vocabulary of the further properties *)

Module Further.

Import govulncheckapi govulncheck exec govulncheck_run.
Import govulncheck_request govulncheck_sandbox.

(** The last non-nil error of a sequence, [start] if there is none. *)
Definition last_error (start : ptr error) (errs : list (ptr error)) : ptr error :=
  fold_left (fun acc err => match err with Some _ => err | None => acc end)
            errs start.

(** Exactly one of a returned pointer and a returned error is nil. *)
Definition one_nil {A : Type} (res : ptr A * ptr error) : Prop :=
  match res with
  | (Some _, None) | (None, Some _) => True
  | _ => False
  end.

(** A [scan.ModuleURLPath] made of its two fields that are read here. *)
Definition mup : Type := (string * string)%type.

(** A request parser that takes the path as the module and a fixed
    version, and refuses the empty path. *)
Definition parse_path (path : string) : mup * ptr error :=
  if (path =? "")%string
  then (("", ""), Some (errors_New "empty path"))
  else ((path, "v1.0.0"), nil).

(** A parameter parser that reads the count from the query: an absent
    query leaves the struct as it is. *)
Definition parse_params (r : http.Request.t) (rp : QueryParams.t)
  : ptr error * QueryParams.t :=
  match http.Request.URL r with
  | Some u =>
      if (http.URL.RawQuery u =? "importedby=7")%string
      then (nil, QueryParams.mk 7 (QueryParams.Mode rp)
                                (QueryParams.Insecure rp) (QueryParams.Serve rp))
      else (nil, rp)
  | None => (nil, rp)
  end.

Definition request_ok : http.Request.t :=
  http.Request.mk "GET"
    (Some (http.URL.mk "/govulncheck/scan/example.com/m" "importedby=7")).

Definition request_no_count : http.Request.t :=
  http.Request.mk "GET" (Some (http.URL.mk "/govulncheck/scan/example.com/m" "")).

(** A JSON decoder for the error field that knows two outputs. *)
Definition decode_error_field (output : string) (e : ErrorField.t)
  : ptr error * ErrorField.t :=
  if (output =? "{Error:sandbox timeout}")%string
  then (nil, ErrorField.mk "sandbox timeout")
  else if (output =? "{")%string
       then (Some (errors_New "unexpected end of JSON input"), e)
       else (nil, e).

Definition decode_response (output : string) (res : SandboxResponse.t)
  : ptr error * SandboxResponse.t :=
  (nil, SandboxResponse.mk [Some Samples.finding_called]
                           (SandboxResponse.Stats res)).

Definition decode_compare (output : string)
           (res : CompareResponse.t (fun A => list (string * A)))
  : ptr error * CompareResponse.t (fun A => list (string * A)) :=
  (nil, res).

(** A scanner that succeeds in two and a half seconds. *)
Definition scan_done : Completion.t :=
  Completion.mk (Exited 0) "{finding}" "" 2500000000 20480.

(** A scanner that could not be started: nothing on standard error. *)
Definition scan_not_started : Completion.t :=
  Completion.mk (Failed (errors_New "executable file not found")) "" "" 0 0.

(** Surroundings whose decoder collects one finding, or fails after it. *)
Definition env_of (done : Completion.t) (decode_fails : bool)
  : Env (list (ptr Finding.t)) :=
  mkEnv (list (ptr Finding.t)) "linux" (fun _ => done)
        (fun _ d => Completion.Maxrss d) []
        (fun _ h =>
           (if decode_fails then Some (errors_New "invalid character") else nil,
            (h ++ [Some Samples.finding_called])%list))
        (fun h => h).

End Further.

(** * Properties *)

Import govulncheckapi govulncheck exec govulncheck_run decoder.

(** ** Helper facts about the standard library model *)

Lemma Time_Equal_true (t u : Time) : Time_Equal t u = true <-> t = u.
Proof.
  unfold Time_Equal. rewrite andb_true_iff, !Z.eqb_eq.
  destruct t as [ts tn], u as [us un]; cbn. split.
  - intros [-> ->]. reflexivity.
  - intros H. injection H as -> ->. split; reflexivity.
Qed.

Lemma Time_Equal_sym (t u : Time) : Time_Equal t u = Time_Equal u t.
Proof. unfold Time_Equal. rewrite (Z.eqb_sym (sec t)), (Z.eqb_sym (nsec t)). reflexivity. Qed.

(** ** The finding normalizer *)

Section Normalizer.

Variable f : Finding.t.

(** What the function builds from [f] and the frame [frame]. *)
Let vuln_of (frame : Frame.t) : Vuln.t :=
  Vuln.mk (Finding.OSV f) (Frame.Package frame) (Frame.Module_ frame)
          (Frame.Version frame) (negb (Frame.Function frame =? "")%string).

Lemma Convert_first_frame (frame : Frame.t) (rest : list (ptr Frame.t)) :
  Finding.Trace f = Some frame :: rest ->
  ConvertGovulncheckFinding (Some f) = Returns (Some (vuln_of frame)).
Proof.
  intros Htrace. unfold ConvertGovulncheckFinding, vuln_of. rewrite Htrace.
  destruct (Frame.Function frame =? "")%string; reflexivity.
Qed.

Lemma Convert_nil_first_entry (rest : list (ptr Frame.t)) :
  Finding.Trace f = nil :: rest ->
  ConvertGovulncheckFinding (Some f) = Panics NilDereference.
Proof. intros Htrace. unfold ConvertGovulncheckFinding. rewrite Htrace. reflexivity. Qed.

Lemma Convert_empty_trace :
  Finding.Trace f = [] ->
  ConvertGovulncheckFinding (Some f) = Panics (IndexOutOfRange 0 0).
Proof. intros Htrace. unfold ConvertGovulncheckFinding. rewrite Htrace. reflexivity. Qed.

End Normalizer.

(** C1, as amended: for every Finding whose trace is non-empty and starts
    with a (non-nil) frame, [ConvertGovulncheckFinding] returns one Vuln
    whose ID is the Finding's OSV id, whose PackagePath, ModulePath and
    Version are those of that first frame, whatever follows it in the
    trace, and whose Called flag is true iff the first frame's Function
    is a non-empty string, and false otherwise. *)
Theorem ConvertGovulncheckFinding_first_frame
        (f : Finding.t) (frame : Frame.t) (rest : list (ptr Frame.t)) :
  Finding.Trace f = Some frame :: rest ->
  exists v : Vuln.t,
    ConvertGovulncheckFinding (Some f) = Returns (Some v) /\
    Vuln.ID v = Finding.OSV f /\
    Vuln.PackagePath v = Frame.Package frame /\
    Vuln.ModulePath v = Frame.Module_ frame /\
    Vuln.Version v = Frame.Version frame /\
    (Vuln.Called v = true <-> Frame.Function frame <> "") /\
    (Vuln.Called v = false <-> Frame.Function frame = "").
Proof.
  intros Htrace. eexists. split.
  - exact (Convert_first_frame f frame rest Htrace).
  - cbn. repeat split; try reflexivity.
    + rewrite negb_true_iff. apply String.eqb_neq.
    + rewrite negb_true_iff. apply String.eqb_neq.
    + rewrite negb_false_iff. apply String.eqb_eq.
    + rewrite negb_false_iff. apply String.eqb_eq.
Qed.

(** The specification's end-to-end scenario, through the theorem. *)
Lemma ConvertGovulncheckFinding_first_frame_witness :
  exists v : Vuln.t,
    ConvertGovulncheckFinding (Some Samples.finding_called) = Returns (Some v) /\
    Vuln.ID v = "GO-2023-0001" /\
    Vuln.PackagePath v = "example.com/m/pkg" /\
    Vuln.ModulePath v = "example.com/m" /\
    Vuln.Version v = "v1.2.0" /\
    (Vuln.Called v = true <-> "Do" <> "") /\
    (Vuln.Called v = false <-> "Do" = "").
Proof.
  apply (ConvertGovulncheckFinding_first_frame
           Samples.finding_called Samples.frame_Do []).
  reflexivity.
Defined.

(** C1, as stated, fails: the trace below is not empty, yet the function
    returns no Vuln; it panics on the nil first entry. *)
Lemma ConvertGovulncheckFinding_nil_frame_panics :
  Finding.Trace Samples.finding_nil_frame <> [] /\
  ConvertGovulncheckFinding (Some Samples.finding_nil_frame)
  = Panics NilDereference /\
  forall v, ConvertGovulncheckFinding (Some Samples.finding_nil_frame)
            <> Returns v.
Proof.
  split; [discriminate|]. split; [reflexivity|].
  intros v. discriminate.
Qed.

(** C7, as amended: when the trace is non-empty, the access to its first
    entry is in bounds, and the function returns a Vuln if that entry is a
    frame (and panics on the dereference if it is nil); with an empty
    trace there is no result: the function panics, index 0 being out of
    range for length 0. *)
Theorem ConvertGovulncheckFinding_safety (f : Finding.t) :
  (Finding.Trace f <> [] ->
   exists entry : ptr Frame.t,
     nth_error (Finding.Trace f) 0 = Some entry /\
     (forall frame, entry = Some frame ->
        exists v, ConvertGovulncheckFinding (Some f) = Returns (Some v)) /\
     (entry = nil ->
        ConvertGovulncheckFinding (Some f) = Panics NilDereference)) /\
  (Finding.Trace f = [] ->
   ConvertGovulncheckFinding (Some f) = Panics (IndexOutOfRange 0 0) /\
   forall v, ConvertGovulncheckFinding (Some f) <> Returns v).
Proof.
  split.
  - intros Hne. destruct (Finding.Trace f) as [|entry rest] eqn:Htrace.
    + contradiction.
    + exists entry. split; [reflexivity|]. split.
      * intros frame ->. eexists.
        exact (Convert_first_frame f frame rest Htrace).
      * intros ->. exact (Convert_nil_first_entry f rest Htrace).
  - intros Htrace. rewrite (Convert_empty_trace f Htrace).
    split; [reflexivity | intros v; discriminate].
Qed.

Lemma ConvertGovulncheckFinding_safety_witness :
  (exists v, ConvertGovulncheckFinding (Some Samples.finding_imported)
             = Returns (Some v)) /\
  ConvertGovulncheckFinding (Some Samples.finding_no_trace)
  = Panics (IndexOutOfRange 0 0).
Proof.
  split.
  - destruct (proj1 (ConvertGovulncheckFinding_safety Samples.finding_imported))
      as [entry [Hnth [Hframe _]]]; [discriminate|].
    injection Hnth as <-.
    exact (Hframe Samples.frame_imported eq_refl).
  - exact (proj1 (proj2 (ConvertGovulncheckFinding_safety Samples.finding_no_trace)
                        eq_refl)).
Defined.

(** C7, as stated, fails: a non-empty trace does not keep the function
    from failing. *)
Lemma ConvertGovulncheckFinding_nonempty_trace_panics :
  (0 < length (Finding.Trace Samples.finding_nil_then_frame))%nat /\
  ConvertGovulncheckFinding (Some Samples.finding_nil_then_frame)
  = Panics NilDereference.
Proof. split; [cbn; lia | reflexivity]. Qed.

(** ** The work-version tracker *)

Lemma Equal_true_iff (v1 v2 : WorkVersion.t) :
  WorkVersion.Equal (Some v1) (Some v2) = true <->
  WorkVersion.GoVersion v1 = WorkVersion.GoVersion v2 /\
  WorkVersion.WorkerVersion v1 = WorkVersion.WorkerVersion v2 /\
  WorkVersion.SchemaVersion v1 = WorkVersion.SchemaVersion v2 /\
  WorkVersion.VulnDBLastModified v1 = WorkVersion.VulnDBLastModified v2.
Proof.
  unfold WorkVersion.Equal.
  rewrite !andb_true_iff, !String.eqb_eq, Time_Equal_true. tauto.
Qed.

Lemma Equal_false_iff (v1 v2 : WorkVersion.t) :
  WorkVersion.Equal (Some v1) (Some v2) = false <->
  ~ (WorkVersion.GoVersion v1 = WorkVersion.GoVersion v2 /\
     WorkVersion.WorkerVersion v1 = WorkVersion.WorkerVersion v2 /\
     WorkVersion.SchemaVersion v1 = WorkVersion.SchemaVersion v2 /\
     WorkVersion.VulnDBLastModified v1 = WorkVersion.VulnDBLastModified v2).
Proof. rewrite <- Equal_true_iff, not_true_iff_false. reflexivity. Qed.

(** C2: for non-nil WorkVersions, [Equal] is true iff the four fields are
    equal; it is reflexive and symmetric; and one differing field, be it
    GoVersion, WorkerVersion, SchemaVersion or VulnDBLastModified (also
    when the two timestamps differ only within the same second), makes
    the WorkVersions unequal. *)
Theorem WorkVersion_Equal_fieldwise (v1 v2 : WorkVersion.t) :
  (WorkVersion.Equal (Some v1) (Some v2) = true <->
   WorkVersion.GoVersion v1 = WorkVersion.GoVersion v2 /\
   WorkVersion.WorkerVersion v1 = WorkVersion.WorkerVersion v2 /\
   WorkVersion.SchemaVersion v1 = WorkVersion.SchemaVersion v2 /\
   WorkVersion.VulnDBLastModified v1 = WorkVersion.VulnDBLastModified v2) /\
  WorkVersion.Equal (Some v1) (Some v1) = true /\
  WorkVersion.Equal (Some v1) (Some v2) = WorkVersion.Equal (Some v2) (Some v1) /\
  (WorkVersion.GoVersion v1 <> WorkVersion.GoVersion v2 ->
   WorkVersion.Equal (Some v1) (Some v2) = false) /\
  (WorkVersion.WorkerVersion v1 <> WorkVersion.WorkerVersion v2 ->
   WorkVersion.Equal (Some v1) (Some v2) = false) /\
  (WorkVersion.SchemaVersion v1 <> WorkVersion.SchemaVersion v2 ->
   WorkVersion.Equal (Some v1) (Some v2) = false) /\
  (WorkVersion.VulnDBLastModified v1 <> WorkVersion.VulnDBLastModified v2 ->
   WorkVersion.Equal (Some v1) (Some v2) = false) /\
  (sec (WorkVersion.VulnDBLastModified v1) = sec (WorkVersion.VulnDBLastModified v2) ->
   nsec (WorkVersion.VulnDBLastModified v1) <> nsec (WorkVersion.VulnDBLastModified v2) ->
   WorkVersion.Equal (Some v1) (Some v2) = false).
Proof.
  split; [apply Equal_true_iff|].
  split; [apply Equal_true_iff; repeat split|].
  split.
  { unfold WorkVersion.Equal.
    rewrite (String.eqb_sym (WorkVersion.GoVersion v1)),
            (String.eqb_sym (WorkVersion.WorkerVersion v1)),
            (String.eqb_sym (WorkVersion.SchemaVersion v1)),
            (Time_Equal_sym (WorkVersion.VulnDBLastModified v1)).
    reflexivity. }
  repeat split; intros; apply Equal_false_iff; intros (Hg & Hw & Hs & Ht);
    try contradiction.
  rewrite Ht in *. contradiction.
Qed.

Lemma WorkVersion_Equal_fieldwise_witness :
  WorkVersion.Equal (Some Samples.wv) (Some Samples.wv) = true /\
  WorkVersion.Equal (Some Samples.wv) (Some Samples.wv_later) = false.
Proof.
  split.
  - exact (proj1 (proj2 (WorkVersion_Equal_fieldwise Samples.wv Samples.wv))).
  - apply (WorkVersion_Equal_fieldwise Samples.wv Samples.wv_later).
    + reflexivity.
    + cbn. lia.
Defined.

(** C6: with nil on either side, [Equal] returns false, so that no
    decision that asks for [Equal] and anything else can be to skip. *)
Theorem WorkVersion_Equal_nil (v1 v2 : ptr WorkVersion.t) :
  v1 = nil \/ v2 = nil ->
  WorkVersion.Equal v1 v2 = false /\
  forall other : bool, WorkVersion.Equal v1 v2 && other = false.
Proof.
  intros Hnil.
  assert (Hfalse : WorkVersion.Equal v1 v2 = false).
  { destruct Hnil as [-> | ->].
    - reflexivity.
    - destruct v1; reflexivity. }
  split; [exact Hfalse|]. intros other. rewrite Hfalse. reflexivity.
Qed.

Lemma WorkVersion_Equal_nil_witness :
  WorkVersion.Equal nil (Some Samples.wv) = false /\
  WorkVersion.Equal (Some Samples.wv) nil = false /\
  WorkVersion.Equal (@nil WorkVersion.t) nil = false.
Proof.
  refine (conj (proj1 (WorkVersion_Equal_nil nil (Some Samples.wv) _))
               (conj (proj1 (WorkVersion_Equal_nil (Some Samples.wv) nil _))
                     (proj1 (WorkVersion_Equal_nil nil nil _)))).
  - left; reflexivity.
  - right; reflexivity.
  - left; reflexivity.
Defined.

(** ** The result aggregator *)

Section Aggregator.

Variable CategorizeError : error -> string.

Lemma AddError_nil (vr : Result.t) : Result.AddError CategorizeError vr nil = vr.
Proof. reflexivity. Qed.

Lemma AddError_Vulns (vr : Result.t) (err : ptr error) :
  Result.Vulns (Result.AddError CategorizeError vr err) = Result.Vulns vr.
Proof. destruct err; reflexivity. Qed.

Lemma AddError_Error (vr : Result.t) (err : error) :
  Result.Error (Result.AddError CategorizeError vr (Some err)) = Error err /\
  Result.ErrorCategory (Result.AddError CategorizeError vr (Some err))
  = CategorizeError err.
Proof. split; reflexivity. Qed.

(** C3, as amended: [AddError] leaves Vulns as it finds them, so applied
    with a non-nil error to a Result whose Vulns are empty it yields a
    Result satisfying the invariant; and when the error has a non-empty
    text, the Result it yields satisfies the invariant only if the Vulns
    were empty before. *)
Theorem AddError_invariant (vr : Result.t) (err : error) :
  Result.Vulns (Result.AddError CategorizeError vr (Some err)) = Result.Vulns vr /\
  (Result.Vulns vr = [] ->
   ErrorImpliesNoVulns (Result.AddError CategorizeError vr (Some err))) /\
  (Error err <> "" ->
   ErrorImpliesNoVulns (Result.AddError CategorizeError vr (Some err)) ->
   Result.Vulns vr = []).
Proof.
  unfold ErrorImpliesNoVulns.
  rewrite AddError_Vulns, (proj1 (AddError_Error vr err)).
  split; [reflexivity|]. split.
  - intros Hempty _. exact Hempty.
  - intros Htext Hinv. exact (Hinv Htext).
Qed.

(** C10: [AddError] with a nil error returns the Result as it was; with a
    non-nil error it sets Error and ErrorCategory and leaves every other
    field as it was. *)
Theorem AddError_frame (vr : Result.t) :
  Result.AddError CategorizeError vr nil = vr /\
  forall err : error,
    let vr' := Result.AddError CategorizeError vr (Some err) in
    Result.Error vr' = Error err /\
    Result.ErrorCategory vr' = CategorizeError err /\
    Result.CreatedAt vr' = Result.CreatedAt vr /\
    Result.ModulePath vr' = Result.ModulePath vr /\
    Result.Version vr' = Result.Version vr /\
    Result.Suffix vr' = Result.Suffix vr /\
    Result.SortVersion vr' = Result.SortVersion vr /\
    Result.ImportedBy vr' = Result.ImportedBy vr /\
    Result.CommitTime vr' = Result.CommitTime vr /\
    Result.ScanSeconds vr' = Result.ScanSeconds vr /\
    Result.BinaryBuildSeconds vr' = Result.BinaryBuildSeconds vr /\
    Result.ScanMemory vr' = Result.ScanMemory vr /\
    Result.ScanMode vr' = Result.ScanMode vr /\
    Result.WorkVersion vr' = Result.WorkVersion vr /\
    Result.Vulns vr' = Result.Vulns vr.
Proof.
  split; [apply AddError_nil|].
  intros err vr'. subst vr'. cbn. repeat split; reflexivity.
Qed.

End Aggregator.

Lemma AddError_invariant_witness :
  ErrorImpliesNoVulns
    (Result.AddError Samples.categorize Samples.result_clean
                     (Some (errors_New "db unreachable"))).
Proof.
  apply (AddError_invariant Samples.categorize Samples.result_clean
                            (errors_New "db unreachable")).
  reflexivity.
Defined.

(** C3, as stated, fails: [AddError] with a non-nil error, applied to a
    Result that holds a Vuln, yields a Result with a non-empty Error and a
    non-empty Vulns list. *)
Lemma AddError_keeps_vulns :
  let r := Result.AddError Samples.categorize Samples.result_with_vuln
                           (Some (errors_New "db unreachable")) in
  Result.Error r = "db unreachable" /\
  Result.Vulns r = [Some Samples.vuln] /\
  ~ ErrorImpliesNoVulns r.
Proof.
  cbn. split; [reflexivity|]. split; [reflexivity|].
  intros Hinv. unfold ErrorImpliesNoVulns in Hinv. cbn in Hinv.
  assert (H : [Some Samples.vuln] = ([] : list (ptr Vuln.t))) by (apply Hinv; discriminate).
  discriminate H.
Qed.

(** ** The scan runner *)

Lemma ReplaceAll_removes (s : string) (old new : ascii) :
  old <> new -> ~ In old (list_ascii_of_string (ReplaceAll s old new)).
Proof.
  intros Hdiff. induction s as [|c rest IH]; cbn.
  - intros [].
  - intros [Hhead | Htail]; [|exact (IH Htail)].
    destruct (Ascii.eqb_spec c old) as [-> | Hc]; congruence.
Qed.

Section Runner.

Context {Handler : Type} (env : Env Handler).
Variables govulncheckPath modeFlag pattern moduleDir vulndbDir : string.
Variable stats : ptr ScanStats.t.
Variable w : World.

Let cmd : Cmd.t :=
  govulncheckCmd env govulncheckPath modeFlag pattern moduleDir vulndbDir.
Let done : Completion.t := os_run env cmd.
Let run :=
  runState (RunGovulncheckCmd env govulncheckPath modeFlag pattern moduleDir
                              vulndbDir stats) w.

Lemma Run_err_nonzero (status : Z) :
  Completion.ending done = Exited status -> status <> 0 ->
  Run_err done = Some (ExitError status).
Proof.
  intros Hend Hstatus. unfold Run_err. rewrite Hend.
  apply Z.eqb_neq in Hstatus. rewrite Hstatus. reflexivity.
Qed.

(** Whenever [cmd.Run()] returns an error, the function returns at once. *)
Lemma RunGovulncheckCmd_run_error (e : error) :
  Run_err done = Some e ->
  run = (Returns ([], Some (errors_New (Completion.Stderr done))), stats,
         mkWorld (clock w + Completion.elapsed done) (events w ++ [EvRun cmd])).
Proof.
  intros Herr. subst run done cmd. unfold RunGovulncheckCmd. cbn.
  rewrite Herr. reflexivity.
Qed.

(** The first thing the function does is run the command. *)
Lemma RunGovulncheckCmd_runs_cmd :
  exists later : list Event, events (snd run) = (events w ++ EvRun cmd :: later)%list.
Proof.
  subst run done cmd. unfold RunGovulncheckCmd. cbn.
  destruct (Run_err _); cbn.
  - exists []. reflexivity.
  - destruct stats as [s|]; cbn.
    + destruct (HandleJSON env _ _) as [[err|] handler]; cbn;
        rewrite <- !app_assoc; eexists; reflexivity.
    + exists []. reflexivity.
Qed.

(** C4: when the scanner exits with a non-zero status, the function
    returns no findings and an error whose text is exactly what the
    scanner wrote to standard error, and running the command is the only
    call it makes: the decoder is not called on the standard output. *)
Theorem RunGovulncheckCmd_nonzero_exit (status : Z) :
  Completion.ending done = Exited status -> status <> 0 ->
  exists err : error,
    fst (fst run) = Returns ([], Some err) /\
    Error err = Completion.Stderr done /\
    events (snd run) = (events w ++ [EvRun cmd])%list /\
    forall input : string,
      In (EvHandleJSON input) (events (snd run)) ->
      In (EvHandleJSON input) (events w).
Proof.
  intros Hend Hstatus.
  pose proof (RunGovulncheckCmd_run_error _ (Run_err_nonzero status Hend Hstatus))
    as Hrun.
  exists (errors_New (Completion.Stderr done)). rewrite Hrun. cbn.
  repeat split.
  intros input Hin. apply in_app_or in Hin. destruct Hin as [Hold | [Hnew | []]].
  - exact Hold.
  - discriminate Hnew.
Qed.

(** C5, as amended: when the scanner exits with a non-zero status, the
    resulting record carries the standard-error text as its error, with a
    non-empty error category and empty Vulns; its stats are not populated
    on this path: the function returns before it writes the duration or
    the memory value and does not measure memory, so that the record's
    duration and memory are those the stats held before the call, zero
    for fresh stats whether or not measurement is supported. *)
Theorem RunGovulncheckCmd_nonzero_exit_record
        (CategorizeError : error -> string) (target : Result.t)
        (s : ScanStats.t) (status : Z) :
  aggregator.Categorizes CategorizeError ->
  stats = Some s ->
  Completion.ending done = Exited status -> status <> 0 ->
  exists (findings : list (ptr Finding.t)) (err : error) (record : Result.t),
    fst run = (Returns (findings, Some err), Some s) /\
    findings = [] /\
    aggregator.Aggregate CategorizeError target s findings (Some err)
    = Returns record /\
    Result.Error record = Completion.Stderr done /\
    Result.ErrorCategory record <> "" /\
    Result.Vulns record = [] /\
    Result.ScanSeconds record = ScanStats.ScanSeconds s /\
    Result.ScanMemory record = ScanStats.ScanMemory s /\
    (ScanStats.ScanMemory s = 0 -> Result.ScanMemory record = 0) /\
    (forall c : Cmd.t,
       In (EvGetMemoryUsage c) (events (snd run)) ->
       In (EvGetMemoryUsage c) (events w)).
Proof.
  intros Hcat Hstats Hend Hstatus.
  pose proof (RunGovulncheckCmd_run_error _ (Run_err_nonzero status Hend Hstatus))
    as Hrun.
  exists [], (errors_New (Completion.Stderr done)). eexists.
  rewrite Hrun, Hstats. cbn.
  split; [reflexivity|]. split; [reflexivity|]. split; [reflexivity|]. cbn.
  split; [reflexivity|]. split; [apply Hcat|]. split; [reflexivity|].
  split; [reflexivity|]. split; [reflexivity|]. split; [intros H0; exact H0|].
  intros c Hin. apply in_app_or in Hin. destruct Hin as [Hold | [Hnew | []]].
  - exact Hold.
  - discriminate Hnew.
Qed.

(** C8: the command the function runs carries, after [-db], the database
    directory as a file URI: on Windows [file:///] followed by the
    directory with every backslash turned into a forward slash, so that
    no backslash is left in it; elsewhere [file://] followed by the
    directory as it is. *)
Theorem RunGovulncheckCmd_db_uri :
  (exists later : list Event,
     events (snd run) = (events w ++ EvRun cmd :: later)%list) /\
  (exists more : list string,
     Cmd.Args cmd
     = govulncheckPath :: "-mode" :: modeFlag :: "-json" :: "-db"
         :: uri env vulndbDir :: more) /\
  (GOOS env = "windows" ->
   uri env vulndbDir = "file:///" ++ ReplaceAll vulndbDir backslash "/"%char /\
   ~ In backslash (list_ascii_of_string (uri env vulndbDir))) /\
  (GOOS env <> "windows" -> uri env vulndbDir = "file://" ++ vulndbDir).
Proof.
  split; [exact RunGovulncheckCmd_runs_cmd|]. split.
  { subst cmd. unfold govulncheckCmd, Command, args. cbn.
    destruct (negb (moduleDir =? "")%string); cbn; eexists; reflexivity. }
  split.
  - intros Hwin. unfold uri, ToSlash, Separator. rewrite Hwin. cbn.
    split; [reflexivity|].
    intros [H | [H | [H | [H | [H | [H | [H | [H | Hin]]]]]]]];
      try discriminate H.
    revert Hin. apply ReplaceAll_removes. discriminate.
  - intros Hother. unfold uri. apply String.eqb_neq in Hother.
    rewrite Hother. reflexivity.
Qed.

End Runner.

(** The specification's scenario: the scanner exits with status 1 and
    "db unreachable" on standard error. *)
Lemma RunGovulncheckCmd_nonzero_exit_witness :
  exists err : error,
    fst (fst (runState
                (RunGovulncheckCmd (Samples.env_failing "linux") "govulncheck"
                                   FlagSource "./..." "/m" "/vulndb"
                                   (Some Samples.stats_zero))
                Samples.world0))
    = Returns ([], Some err) /\
    Error err = "db unreachable".
Proof.
  destruct (RunGovulncheckCmd_nonzero_exit
              (Samples.env_failing "linux") "govulncheck" FlagSource "./..."
              "/m" "/vulndb" (Some Samples.stats_zero) Samples.world0 1)
    as [err [Hret [Htext _]]].
  - reflexivity.
  - lia.
  - exists err. split; [exact Hret | exact Htext].
Defined.

Lemma RunGovulncheckCmd_nonzero_exit_record_witness :
  exists record : Result.t,
    aggregator.Aggregate
      Samples.categorize Samples.result_with_vuln Samples.stats_zero []
      (Some (errors_New "db unreachable"))
    = Returns record /\
    Result.Error record = "db unreachable" /\
    Result.ErrorCategory record <> "" /\
    Result.Vulns record = [] /\
    Result.ScanMemory record = 0.
Proof.
  destruct (RunGovulncheckCmd_nonzero_exit_record
              (Samples.env_failing "linux") "govulncheck" FlagSource "./..."
              "/m" "/vulndb" (Some Samples.stats_zero) Samples.world0
              Samples.categorize Samples.result_with_vuln Samples.stats_zero 1)
    as (findings & err & record & Hrun & Hnone & Hrec & Herror & Hcat & Hvulns
        & _ & _ & Hmem & _).
  - intros e. discriminate.
  - reflexivity.
  - reflexivity.
  - lia.
  - exists record. subst findings.
    assert (Herr : err = errors_New "db unreachable").
    { cbv in Hrun. injection Hrun as <-. reflexivity. }
    subst err.
    split; [exact Hrec|]. split; [exact Herror|]. split; [exact Hcat|].
    split; [exact Hvulns | exact (Hmem eq_refl)].
Defined.

(** C5, as stated, fails: the scanner below exits with status 1 five
    seconds after it was started; the stats then still hold the duration
    they held before the call, zero, not the five seconds that passed up
    to the failure. *)
Lemma RunGovulncheckCmd_failure_duration_not_measured :
  let env := Samples.env_failing "linux" in
  let run :=
    runState (RunGovulncheckCmd env "govulncheck" FlagSource "./..." "/m"
                                "/vulndb" (Some Samples.stats_zero))
             Samples.world0 in
  Completion.ending
    (os_run env (govulncheckCmd env "govulncheck" FlagSource "./..." "/m" "/vulndb"))
  = Exited 1 /\
  clock (snd run) - clock Samples.world0 = 5 * Second /\
  snd (fst run) = Some Samples.stats_zero /\
  ScanStats.ScanSeconds Samples.stats_zero <> Duration_Seconds (5 * Second).
Proof.
  cbv zeta. split; [reflexivity|]. split; [reflexivity|]. split; [reflexivity|].
  intros H. apply (f_equal PrimFloat.classify) in H.
  vm_compute in H. discriminate H.
Qed.

Lemma RunGovulncheckCmd_db_uri_witness :
  uri (Samples.env_failing "windows") "C:\vulndb\go" = "file:///C:/vulndb/go" /\
  uri (Samples.env_failing "linux") "/var/vulndb" = "file:///var/vulndb".
Proof.
  split.
  - destruct (RunGovulncheckCmd_db_uri
                (Samples.env_failing "windows") "govulncheck" FlagSource "./..."
                "" "C:\vulndb\go" nil Samples.world0)
      as [_ [_ [Hwindows _]]].
    exact (proj1 (Hwindows eq_refl)).
  - destruct (RunGovulncheckCmd_db_uri
                (Samples.env_failing "linux") "govulncheck" FlagSource "./..."
                "" "/var/vulndb" nil Samples.world0)
      as [_ [_ [_ Hother]]].
    apply Hother. discriminate.
Defined.

(** ** The message protocol decoder *)

Section DecoderFacts.

Context {Entry : Type}.

Lemma decodeMessage_malformed (m : Message.t Entry) :
  populated m <> 1%nat -> decodeMessage m = inl MalformedMessageError.
Proof.
  unfold populated, decodeMessage.
  destruct (Message.Config m), (Message.Progress m), (Message.OSV m),
    (Message.Finding m); cbn; intros H; try reflexivity; contradiction.
Qed.

Lemma decodeMessage_payload (m : Message.t Entry) (p : Payload Entry) :
  decodeMessage m = inr p -> populated m = 1%nat.
Proof.
  unfold populated, decodeMessage.
  destruct (Message.Config m), (Message.Progress m), (Message.OSV m),
    (Message.Finding m); cbn; intros H; try reflexivity; discriminate H.
Qed.

Lemma decodeMessage_error (m : Message.t Entry) (e : DecodeError) :
  decodeMessage m = inl e -> e = MalformedMessageError.
Proof.
  unfold decodeMessage.
  destruct (Message.Config m), (Message.Progress m), (Message.OSV m),
    (Message.Finding m); intros H; first [discriminate H | now injection H].
Qed.

(** The elements only ever fail with [MalformedMessageError]. *)
Lemma decodeElements_error (es : list (Element Entry)) (e : DecodeError) :
  decodeElements es = inl e -> e = MalformedMessageError.
Proof.
  induction es as [|[m|] rest IH]; cbn; intros H.
  - discriminate H.
  - destruct (decodeMessage m) as [e'|p] eqn:Hm.
    + injection H as <-. exact (decodeMessage_error m e' Hm).
    + destruct (decodeElements rest) as [e'|ps]; [|discriminate H].
      injection H as <-. apply IH. reflexivity.
  - congruence.
Qed.

Lemma decodeElements_malformed (es : list (Element Entry)) (m : Message.t Entry) :
  In (Structured m) es -> populated m <> 1%nat ->
  decodeElements es = inl MalformedMessageError.
Proof.
  intros Hin Hbad. induction es as [|[m'|] rest IH]; cbn.
  - destruct Hin.
  - destruct Hin as [Hhere | Hlater].
    + injection Hhere as ->. rewrite (decodeMessage_malformed m Hbad). reflexivity.
    + destruct (decodeMessage m') as [e|p] eqn:Hm'.
      * f_equal. apply (decodeElements_error [Structured m']). cbn.
        rewrite Hm'. reflexivity.
      * rewrite (IH Hlater). reflexivity.
  - reflexivity.
Qed.

(** Decoding neither drops nor adds a message. *)
Lemma decodeElements_length (es : list (Element Entry)) (ps : list (Payload Entry)) :
  decodeElements es = inr ps -> length ps = length es.
Proof.
  revert ps. induction es as [|[m|] rest IH]; cbn; intros ps H.
  - injection H as <-. reflexivity.
  - destruct (decodeMessage m); [discriminate H|].
    destruct (decodeElements rest) as [|ps']; [discriminate H|].
    injection H as <-. cbn. f_equal. apply IH. reflexivity.
  - discriminate H.
Qed.

(** C9: a stream that contains a message with no payload field or with
    more than one payload field filled in is not decoded: decoding fails
    with the malformed-message error and yields no sequence of messages,
    neither one without that message nor one with it. *)
Theorem Decode_rejects_malformed (s : Stream Entry) (m : Message.t Entry) :
  In (Structured m) (elements s) ->
  populated m = 0%nat \/ (1 < populated m)%nat ->
  Decode s = inl MalformedMessageError /\
  forall ps : list (Payload Entry), Decode s <> inr ps.
Proof.
  intros Hin Hbad.
  assert (Hdecode : Decode s = inl MalformedMessageError).
  { unfold Decode. rewrite (decodeElements_malformed (elements s) m Hin); [reflexivity|].
    lia. }
  split; [exact Hdecode|]. intros ps. rewrite Hdecode. discriminate.
Qed.

End DecoderFacts.

Lemma Decode_rejects_malformed_witness :
  Decode Samples.stream_with_empty = inl MalformedMessageError /\
  Decode Samples.stream_with_two = inl MalformedMessageError.
Proof.
  split.
  - apply (Decode_rejects_malformed Samples.stream_with_empty Samples.msg_empty).
    + cbn. right; left; reflexivity.
    + left; reflexivity.
  - apply (Decode_rejects_malformed Samples.stream_with_two Samples.msg_two).
    + cbn. left; reflexivity.
    + right; cbn; lia.
Defined.

(** * Further properties of the code *)

Import govulncheck_request govulncheck_sandbox Further.

(** ** Strings *)

Lemma length_app (p s : string) :
  String.length (p ++ s) = (String.length p + String.length s)%nat.
Proof. induction p as [|c p IH]; cbn; [reflexivity | now rewrite IH]. Qed.

Lemma substring_all (s : string) : substring 0 (String.length s) s = s.
Proof. induction s as [|c s IH]; cbn; [reflexivity | now rewrite IH]. Qed.

Lemma substring_app_left (p s : string) :
  substring 0 (String.length p) (p ++ s) = p.
Proof.
  induction p as [|c p IH]; cbn.
  - destruct s; reflexivity.
  - now rewrite IH.
Qed.

Lemma substring_app_right (p s : string) :
  substring (String.length p) (String.length s) (p ++ s) = s.
Proof. induction p as [|c p IH]; cbn; [apply substring_all | exact IH]. Qed.

Lemma HasPrefix_app (p s : string) : strings.HasPrefix (p ++ s) p = true.
Proof.
  unfold strings.HasPrefix. rewrite length_app, substring_app_left, String.eqb_refl.
  rewrite andb_true_r. apply Nat.leb_le. lia.
Qed.

Lemma TrimPrefix_app (p s : string) : strings.TrimPrefix (p ++ s) p = s.
Proof.
  unfold strings.TrimPrefix. rewrite HasPrefix_app, length_app.
  replace (String.length p + String.length s - String.length p)%nat
    with (String.length s) by lia.
  apply substring_app_right.
Qed.

Lemma TrimPrefix_absent (s p : string) :
  strings.HasPrefix s p = false -> strings.TrimPrefix s p = s.
Proof. intros H. unfold strings.TrimPrefix. rewrite H. reflexivity. Qed.

(** Two texts cut at their first [@] agree part by part. *)
Lemma split_at_first_at (m1 m2 v1 v2 : string) :
  ~ In "@"%char (list_ascii_of_string m1) ->
  ~ In "@"%char (list_ascii_of_string m2) ->
  m1 ++ "@" ++ v1 = m2 ++ "@" ++ v2 -> m1 = m2 /\ v1 = v2.
Proof.
  revert m2. induction m1 as [|c m1 IH]; intros [|d m2] H1 H2 Heq; cbn in *.
  - injection Heq as ->. split; reflexivity.
  - injection Heq as <- _. exfalso. apply H2. left. reflexivity.
  - injection Heq as -> _. exfalso. apply H1. left. reflexivity.
  - injection Heq as -> Heq.
    destruct (IH m2) as [-> ->]; [tauto | tauto | exact Heq |].
    split; reflexivity.
Qed.

(** ** Requests *)

Section Requests.

Context {MUP : Type}.
Variables Module_ Version : MUP -> string.

(** X13: two requests whose module paths hold no [@] have the same
    [Name] only if they have the same module path and the same version. *)
Theorem Name_injective (r1 r2 : Request.t MUP) :
  ~ In "@"%char (list_ascii_of_string (Module_ (Request.ModuleURLPath r1))) ->
  ~ In "@"%char (list_ascii_of_string (Module_ (Request.ModuleURLPath r2))) ->
  Request.Name Module_ Version r1 = Request.Name Module_ Version r2 ->
  Module_ (Request.ModuleURLPath r1) = Module_ (Request.ModuleURLPath r2) /\
  Version (Request.ModuleURLPath r1) = Version (Request.ModuleURLPath r2).
Proof. intros H1 H2 Heq. exact (split_at_first_at _ _ _ _ H1 H2 Heq). Qed.

Variable ParseModuleURLPath : string -> MUP * ptr error.
Variable ParseParams :
  http.Request.t -> QueryParams.t -> ptr error * QueryParams.t.

(** What [ParseRequest] does with a request that has a URL. *)
Lemma ParseRequest_cases (r : http.Request.t) (u : http.URL.t) (prefix : string) :
  http.Request.URL r = Some u ->
  let parsed := ParseModuleURLPath (strings.TrimPrefix (http.URL.Path u) prefix) in
  let params := ParseParams r (QueryParams.mk (-1) "" false false) in
  ParseRequest ParseModuleURLPath ParseParams (Some r) prefix
  = Returns
      match snd parsed with
      | Some err => (nil, Some err)
      | None =>
          match fst params with
          | Some err => (nil, Some err)
          | None =>
              if QueryParams.ImportedBy (snd params) <? 0
              then (nil, Some (errors_New missing_importedby))
              else (Some (Request.mk (fst parsed) (snd params)), nil)
          end
      end.
Proof.
  intros Hurl. cbn. unfold ParseRequest. rewrite Hurl.
  destruct (ParseModuleURLPath _) as [mp [err|]]; cbn; [reflexivity|].
  destruct (ParseParams _ _) as [[err|] rp]; cbn; [reflexivity|].
  destruct (QueryParams.ImportedBy rp <? 0); reflexivity.
Qed.

(** X14: for a request with a URL, [ParseRequest] returns either an error
    and no Request, or a Request and no error; the Request it returns has
    a non-negative imported-by count, the parameters that [ParseParams]
    left, and the module path parsed from the URL path without the
    prefix. *)
Theorem ParseRequest_result (r : http.Request.t) (u : http.URL.t) (prefix : string) :
  http.Request.URL r = Some u ->
  exists res : ptr (Request.t MUP) * ptr error,
    ParseRequest ParseModuleURLPath ParseParams (Some r) prefix = Returns res /\
    one_nil res /\
    forall req : Request.t MUP,
      fst res = Some req ->
      0 <= QueryParams.ImportedBy (Request.QueryParams req) /\
      Request.QueryParams req
      = snd (ParseParams r (QueryParams.mk (-1) "" false false)) /\
      Request.ModuleURLPath req
      = fst (ParseModuleURLPath (strings.TrimPrefix (http.URL.Path u) prefix)).
Proof.
  intros Hurl. eexists. split; [exact (ParseRequest_cases r u prefix Hurl)|].
  cbn. destruct (snd (ParseModuleURLPath _)); cbn.
  { split; [exact I | intros req H; discriminate H]. }
  destruct (fst (ParseParams _ _)); cbn.
  { split; [exact I | intros req H; discriminate H]. }
  destruct (Z.ltb_spec (QueryParams.ImportedBy (snd (ParseParams r
              (QueryParams.mk (-1) "" false false)))) 0) as [Hneg | Hpos]; cbn.
  { split; [exact I | intros req H; discriminate H]. }
  split; [exact I|]. intros req H. injection H as <-. cbn.
  split; [exact Hpos|]. split; reflexivity.
Qed.

(** X15: the count starts at -1: when the module path parses and
    [ParseParams] reports no error but leaves the struct as it was given,
    [ParseRequest] fails with the missing-or-negative message; and an
    error of [ParseModuleURLPath] is returned as it is, whatever the
    parameters are. *)
Theorem ParseRequest_errors (r : http.Request.t) (u : http.URL.t) (prefix : string) :
  http.Request.URL r = Some u ->
  (snd (ParseModuleURLPath (strings.TrimPrefix (http.URL.Path u) prefix)) = nil ->
   ParseParams r (QueryParams.mk (-1) "" false false)
   = (nil, QueryParams.mk (-1) "" false false) ->
   ParseRequest ParseModuleURLPath ParseParams (Some r) prefix
   = Returns (nil, Some (errors_New missing_importedby))) /\
  (forall err : error,
     snd (ParseModuleURLPath (strings.TrimPrefix (http.URL.Path u) prefix))
     = Some err ->
     ParseRequest ParseModuleURLPath ParseParams (Some r) prefix
     = Returns (nil, Some err)).
Proof.
  intros Hurl. rewrite (ParseRequest_cases r u prefix Hurl). cbn. split.
  - intros -> ->. reflexivity.
  - intros err ->. reflexivity.
Qed.

End Requests.

Lemma Name_injective_witness :
  Request.Name fst snd (Request.mk ("example.com/m", "v1.2.0")
                                   (QueryParams.mk 3 "" false false))
  = "example.com/m@v1.2.0" /\
  (fst ("example.com/m", "v1.2.0") = fst ("example.com/m", "v1.2.0") /\
   snd ("example.com/m", "v1.2.0") = snd ("example.com/m", "v1.2.0")).
Proof.
  split; [reflexivity|].
  apply (Name_injective (MUP := mup) fst snd
           (Request.mk ("example.com/m", "v1.2.0") (QueryParams.mk 3 "" false false))
           (Request.mk ("example.com/m", "v1.2.0") (QueryParams.mk 0 "" true false))).
  - cbn. intuition discriminate.
  - cbn. intuition discriminate.
  - reflexivity.
Defined.

Lemma ParseRequest_result_witness :
  exists res,
    ParseRequest parse_path parse_params (Some request_ok) "/govulncheck/scan/"
    = Returns res /\
    fst res = Some (Request.mk ("example.com/m", "v1.0.0")
                               (QueryParams.mk 7 "" false false)).
Proof.
  destruct (ParseRequest_result parse_path parse_params request_ok
              (http.URL.mk "/govulncheck/scan/example.com/m" "importedby=7")
              "/govulncheck/scan/" eq_refl) as [res [Hres _]].
  exists res. split; [exact Hres|].
  cbv in Hres. injection Hres as <-. reflexivity.
Defined.

Lemma ParseRequest_errors_witness :
  ParseRequest parse_path parse_params (Some request_no_count) "/govulncheck/scan/"
  = Returns (nil, Some (errors_New missing_importedby)) /\
  ParseRequest parse_path parse_params (Some request_ok)
               "/govulncheck/scan/example.com/m"
  = Returns (nil, Some (errors_New "empty path")).
Proof.
  split.
  - apply (proj1 (ParseRequest_errors parse_path parse_params request_no_count
                    (http.URL.mk "/govulncheck/scan/example.com/m" "")
                    "/govulncheck/scan/" eq_refl)); reflexivity.
  - apply (proj2 (ParseRequest_errors parse_path parse_params request_ok
                    (http.URL.mk "/govulncheck/scan/example.com/m" "importedby=7")
                    "/govulncheck/scan/example.com/m" eq_refl)).
    reflexivity.
Defined.

Section RequestPrefix.

Context {MUP : Type}.
Variable ParseModuleURLPath : string -> MUP * ptr error.
Variable ParseParams :
  http.Request.t -> QueryParams.t -> ptr error * QueryParams.t.

(** X16: the endpoint prefix is cut off only where it is: for a URL path
    that is the prefix followed by [rest], a Request that [ParseRequest]
    returns carries the module path parsed from [rest], and an error of
    parsing [rest] is what [ParseRequest] returns; for a URL path that
    does not start with the prefix, the whole path is parsed. *)
Theorem ParseRequest_prefix (r : http.Request.t) (u : http.URL.t)
        (prefix rest : string) :
  http.Request.URL r = Some u ->
  (http.URL.Path u = prefix ++ rest ->
   (forall req err,
      ParseRequest ParseModuleURLPath ParseParams (Some r) prefix
      = Returns (Some req, err) ->
      Request.ModuleURLPath req = fst (ParseModuleURLPath rest)) /\
   (forall err,
      snd (ParseModuleURLPath rest) = Some err ->
      ParseRequest ParseModuleURLPath ParseParams (Some r) prefix
      = Returns (nil, Some err))) /\
  (strings.HasPrefix (http.URL.Path u) prefix = false ->
   forall req err,
     ParseRequest ParseModuleURLPath ParseParams (Some r) prefix
     = Returns (Some req, err) ->
     Request.ModuleURLPath req = fst (ParseModuleURLPath (http.URL.Path u))).
Proof.
  intros Hurl.
  assert (Hreq : forall path req err,
            strings.TrimPrefix (http.URL.Path u) prefix = path ->
            ParseRequest ParseModuleURLPath ParseParams (Some r) prefix
            = Returns (Some req, err) ->
            Request.ModuleURLPath req = fst (ParseModuleURLPath path)).
  { intros path req err <-. rewrite (ParseRequest_cases _ _ r u prefix Hurl). cbn.
    destruct (snd (ParseModuleURLPath _)); [discriminate|].
    destruct (fst (ParseParams _ _)); [discriminate|].
    destruct (_ <? 0); [discriminate|].
    intros H. injection H as <- _. reflexivity. }
  split.
  - intros Hpath. split.
    + intros req err. apply Hreq. rewrite Hpath. apply TrimPrefix_app.
    + intros err Herr. rewrite (ParseRequest_cases _ _ r u prefix Hurl). cbn.
      rewrite Hpath, TrimPrefix_app, Herr. reflexivity.
  - intros Hno req err. apply Hreq. apply TrimPrefix_absent. exact Hno.
Qed.

End RequestPrefix.

Lemma ParseRequest_prefix_witness :
  Request.ModuleURLPath
    (Request.mk ("example.com/m", "v1.0.0") (QueryParams.mk 7 "" false false))
  = fst (parse_path "example.com/m").
Proof.
  apply (proj1 (proj1 (ParseRequest_prefix parse_path parse_params request_ok
                         (http.URL.mk "/govulncheck/scan/example.com/m"
                                      "importedby=7")
                         "/govulncheck/scan/" "example.com/m" eq_refl)
                      eq_refl)
               (Request.mk ("example.com/m", "v1.0.0")
                           (QueryParams.mk 7 "" false false))
               nil).
  reflexivity.
Defined.

(** ** Sandbox responses *)

Section Unmarshalling.

Variable Unmarshal_ErrorField :
  string -> ErrorField.t -> ptr error * ErrorField.t.
Variable Unmarshal_SandboxResponse :
  string -> SandboxResponse.t -> ptr error * SandboxResponse.t.

(** X11: [UnmarshalSandboxResponse] returns a response or an error, never
    both and never neither.  An output whose error field decodes to a
    non-empty text is turned into an error of that text, whatever the
    output would decode to as a response; a response is returned only
    when the error field is empty, and it is the decoded response. *)
Theorem UnmarshalSandboxResponse_result (output : string) :
  let res := UnmarshalSandboxResponse Unmarshal_ErrorField
                                      Unmarshal_SandboxResponse output in
  one_nil res /\
  (forall e : ErrorField.t,
     Unmarshal_ErrorField output ErrorField.zero = (nil, e) ->
     ErrorField.Error e <> "" ->
     res = (nil, Some (errors_New (ErrorField.Error e)))) /\
  (forall r : SandboxResponse.t,
     fst res = Some r ->
     ErrorField.Error (snd (Unmarshal_ErrorField output ErrorField.zero)) = "" /\
     Unmarshal_SandboxResponse output SandboxResponse.zero = (nil, r)).
Proof.
  cbv zeta. unfold UnmarshalSandboxResponse.
  destruct (Unmarshal_ErrorField output ErrorField.zero) as [[err|] e]; cbn.
  { split; [exact I|]. split; [intros e' H; discriminate H | intros r H; discriminate H]. }
  destruct (String.eqb_spec (ErrorField.Error e) "") as [Hempty | Hfull]; cbn.
  - destruct (Unmarshal_SandboxResponse output SandboxResponse.zero)
      as [[err|] r0]; cbn.
    + split; [exact I|]. split; [|intros r H; discriminate H].
      intros e' H He'. injection H as <-. contradiction.
    + split; [exact I|]. split.
      * intros e' H He'. injection H as <-. contradiction.
      * intros r H. injection H as <-. split; [exact Hempty | reflexivity].
  - split; [exact I|]. split; [|intros r H; discriminate H].
    intros e' H _. injection H as <-. reflexivity.
Qed.

Context {StringMap : Type -> Type}.
Variable nil_map : StringMap (ptr ComparePair.t).
Variable Unmarshal_CompareResponse :
  string -> CompareResponse.t StringMap -> ptr error * CompareResponse.t StringMap.

(** X12: [UnmarshalCompareResponse] likewise returns a response or an
    error, never both and never neither; a non-empty error field becomes
    the error, before the output is decoded as a comparison; and an error
    of either decoding is returned as it is. *)
Theorem UnmarshalCompareResponse_result (output : string) :
  let res := UnmarshalCompareResponse Unmarshal_ErrorField nil_map
                                      Unmarshal_CompareResponse output in
  one_nil res /\
  (forall e : ErrorField.t,
     Unmarshal_ErrorField output ErrorField.zero = (nil, e) ->
     ErrorField.Error e <> "" ->
     res = (nil, Some (errors_New (ErrorField.Error e)))) /\
  (forall err : error,
     fst (Unmarshal_ErrorField output ErrorField.zero) = Some err ->
     res = (nil, Some err)) /\
  (forall (e : ErrorField.t) (err : error),
     Unmarshal_ErrorField output ErrorField.zero = (nil, e) ->
     ErrorField.Error e = "" ->
     fst (Unmarshal_CompareResponse output (CompareResponse.mk nil_map)) = Some err ->
     res = (nil, Some err)).
Proof.
  cbv zeta. unfold UnmarshalCompareResponse.
  destruct (Unmarshal_ErrorField output ErrorField.zero) as [[err|] e]; cbn.
  { split; [exact I|]. split; [intros e' H; discriminate H|].
    split; [intros err' H; injection H as <-; reflexivity|].
    intros e' err' H; discriminate H. }
  destruct (String.eqb_spec (ErrorField.Error e) "") as [Hempty | Hfull]; cbn.
  - destruct (Unmarshal_CompareResponse output (CompareResponse.mk nil_map))
      as [[err|] r0]; cbn.
    + split; [exact I|]. split; [|split].
      * intros e' H He'. injection H as <-. contradiction.
      * intros err' H. discriminate H.
      * intros e' err' _ _ H. injection H as <-. reflexivity.
    + split; [exact I|]. split; [|split].
      * intros e' H He'. injection H as <-. contradiction.
      * intros err' H. discriminate H.
      * intros e' err' _ _ H. discriminate H.
  - split; [exact I|]. split; [|split].
    + intros e' H _. injection H as <-. reflexivity.
    + intros err' H. discriminate H.
    + intros e' err' H He'. injection H as <-. contradiction.
Qed.

End Unmarshalling.

Lemma UnmarshalSandboxResponse_result_witness :
  UnmarshalSandboxResponse decode_error_field decode_response
                           "{Error:sandbox timeout}"
  = (nil, Some (errors_New "sandbox timeout")).
Proof.
  apply (proj1 (proj2 (UnmarshalSandboxResponse_result
                         decode_error_field decode_response
                         "{Error:sandbox timeout}"))
               (ErrorField.mk "sandbox timeout")).
  - reflexivity.
  - discriminate.
Defined.

Lemma UnmarshalCompareResponse_result_witness :
  UnmarshalCompareResponse decode_error_field [] decode_compare "{"
  = (nil, Some (errors_New "unexpected end of JSON input")) /\
  UnmarshalCompareResponse decode_error_field [] decode_compare
                           "{Error:sandbox timeout}"
  = (nil, Some (errors_New "sandbox timeout")).
Proof.
  split.
  - apply (proj1 (proj2 (proj2 (UnmarshalCompareResponse_result
                                  decode_error_field [] decode_compare "{")))).
    reflexivity.
  - apply (proj1 (proj2 (UnmarshalCompareResponse_result
                           decode_error_field [] decode_compare
                           "{Error:sandbox timeout}"))
                 (ErrorField.mk "sandbox timeout")).
    + reflexivity.
    + discriminate.
Defined.

(** ** More on the finding normalizer *)

(** X1: the Vuln depends on the OSV id, on the Package, Module and
    Version of the first frame and on whether its Function is empty, and on
    nothing else: neither on the fixed version, nor on the function's
    name, its receiver or its position, nor on the frames that follow. *)
Theorem ConvertGovulncheckFinding_depends_on
        (f g : Finding.t) (a b : Frame.t) (ra rb : list (ptr Frame.t)) :
  Finding.Trace f = Some a :: ra ->
  Finding.Trace g = Some b :: rb ->
  Finding.OSV f = Finding.OSV g ->
  Frame.Package a = Frame.Package b ->
  Frame.Module_ a = Frame.Module_ b ->
  Frame.Version a = Frame.Version b ->
  (Frame.Function a = "" <-> Frame.Function b = "") ->
  ConvertGovulncheckFinding (Some f) = ConvertGovulncheckFinding (Some g).
Proof.
  intros Hf Hg Hosv Hpkg Hmod Hver Hfun.
  rewrite (Convert_first_frame f a ra Hf), (Convert_first_frame g b rb Hg).
  rewrite Hosv, Hpkg, Hmod, Hver.
  destruct (String.eqb_spec (Frame.Function a) "") as [Ha | Ha],
           (String.eqb_spec (Frame.Function b) "") as [Hb | Hb];
    try reflexivity; tauto.
Qed.

Lemma ConvertGovulncheckFinding_depends_on_witness :
  ConvertGovulncheckFinding
    (Some (Finding.mk "GO-2023-0001" "v1.3.0"
             [Some (Frame.mk "example.com/m" "v1.2.0" "example.com/m/pkg" "Run"
                             "T" (Some (Position.mk "m.go" 10 2 1)));
              nil]))
  = ConvertGovulncheckFinding (Some Samples.finding_called).
Proof.
  apply (ConvertGovulncheckFinding_depends_on
           _ Samples.finding_called
           (Frame.mk "example.com/m" "v1.2.0" "example.com/m/pkg" "Run"
                     "T" (Some (Position.mk "m.go" 10 2 1)))
           Samples.frame_Do [nil] []); try reflexivity.
  split; discriminate.
Defined.

(** ** More on the work-version tracker *)

(** X2: over all pointers, nil included, [Equal] is symmetric and
    transitive, and a pointer is [Equal] to itself exactly when it is not
    nil. *)
Theorem WorkVersion_Equal_partial_equivalence :
  (forall v1 v2 : ptr WorkVersion.t,
     WorkVersion.Equal v1 v2 = WorkVersion.Equal v2 v1) /\
  (forall v1 v2 v3 : ptr WorkVersion.t,
     WorkVersion.Equal v1 v2 = true -> WorkVersion.Equal v2 v3 = true ->
     WorkVersion.Equal v1 v3 = true) /\
  (forall v : ptr WorkVersion.t, WorkVersion.Equal v v = true <-> v <> nil).
Proof.
  split; [|split].
  - intros [v1|] [v2|]; try reflexivity.
    destruct (WorkVersion.Equal (Some v1) (Some v2)) eqn:H12;
      destruct (WorkVersion.Equal (Some v2) (Some v1)) eqn:H21; try reflexivity.
    + apply Equal_true_iff in H12. apply Equal_false_iff in H21.
      exfalso. apply H21. intuition congruence.
    + apply Equal_true_iff in H21. apply Equal_false_iff in H12.
      exfalso. apply H12. intuition congruence.
  - intros [v1|] [v2|] [v3|]; try discriminate.
    rewrite !Equal_true_iff. intros (-> & -> & -> & ->) H. exact H.
  - intros [v|]; split; try discriminate.
    + intros _. apply Equal_true_iff. repeat split.
    + intros H. contradiction H. reflexivity.
Qed.

Lemma WorkVersion_Equal_partial_equivalence_witness :
  WorkVersion.Equal (Some Samples.wv) (Some Samples.wv) = true /\
  WorkVersion.Equal (@nil WorkVersion.t) nil <> true.
Proof.
  destruct WorkVersion_Equal_partial_equivalence as [_ [Htrans Hrefl]].
  split.
  - apply (Htrans (Some Samples.wv) (Some Samples.wv) (Some Samples.wv));
      reflexivity.
  - intros H. apply (proj1 (Hrefl nil)) in H. apply H. reflexivity.
Defined.

(** ** More on the result aggregator *)

Section MoreAggregator.

Variable CategorizeError : error -> string.

Lemma AddError_twice (vr : Result.t) (first : ptr error) (err : ptr error) :
  Result.AddError CategorizeError (Result.AddError CategorizeError vr first) err
  = Result.AddError CategorizeError vr
      (match err with Some _ => err | None => first end).
Proof. destruct err as [e|]; [destruct first; reflexivity | reflexivity]. Qed.

(** X3: errors added one after the other leave the Result as adding the
    last non-nil one alone does: a later error replaces an earlier one,
    and a nil error never clears what has been recorded. *)
Theorem AddError_last_wins (vr : Result.t) (errs : list (ptr error)) :
  fold_left (Result.AddError CategorizeError) errs vr
  = Result.AddError CategorizeError vr (last_error nil errs).
Proof.
  change vr with (Result.AddError CategorizeError vr nil) at 1.
  generalize (@nil error) as start.
  induction errs as [|err errs IH]; intros start; cbn.
  - reflexivity.
  - rewrite AddError_twice. apply IH.
Qed.

(** X4: [SetUploadTime] sets the creation time and leaves each of the
    fourteen other fields as it was; the last time set is the one kept,
    and it makes no difference whether the time is set before or after an
    error is added. *)
Theorem SetUploadTime_frame (vr : Result.t) (t1 t2 : Time) (err : ptr error) :
  let vr' := Result.SetUploadTime vr t1 in
  (Result.CreatedAt vr' = t1 /\
   Result.ModulePath vr' = Result.ModulePath vr /\
   Result.Version vr' = Result.Version vr /\
   Result.Suffix vr' = Result.Suffix vr /\
   Result.SortVersion vr' = Result.SortVersion vr /\
   Result.ImportedBy vr' = Result.ImportedBy vr /\
   Result.Error vr' = Result.Error vr /\
   Result.ErrorCategory vr' = Result.ErrorCategory vr /\
   Result.CommitTime vr' = Result.CommitTime vr /\
   Result.ScanSeconds vr' = Result.ScanSeconds vr /\
   Result.BinaryBuildSeconds vr' = Result.BinaryBuildSeconds vr /\
   Result.ScanMemory vr' = Result.ScanMemory vr /\
   Result.ScanMode vr' = Result.ScanMode vr /\
   Result.WorkVersion vr' = Result.WorkVersion vr /\
   Result.Vulns vr' = Result.Vulns vr) /\
  Result.SetUploadTime vr (Result.CreatedAt vr) = vr /\
  Result.SetUploadTime (Result.SetUploadTime vr t1) t2
  = Result.SetUploadTime vr t2 /\
  Result.AddError CategorizeError (Result.SetUploadTime vr t1) err
  = Result.SetUploadTime (Result.AddError CategorizeError vr err) t1.
Proof.
  cbv zeta. split; [cbn; repeat split|].
  split; [destruct vr; reflexivity|].
  split; [reflexivity|]. destruct err; reflexivity.
Qed.

End MoreAggregator.

(** ** More on the scan runner *)

Section MoreRunner.

Context {Handler : Type} (env : Env Handler).
Variables govulncheckPath modeFlag pattern moduleDir vulndbDir : string.
Variable w : World.

Let cmd : Cmd.t :=
  govulncheckCmd env govulncheckPath modeFlag pattern moduleDir vulndbDir.
Let done : Completion.t := os_run env cmd.
Let run (stats : ptr ScanStats.t) :=
  runState (RunGovulncheckCmd env govulncheckPath modeFlag pattern moduleDir
                              vulndbDir stats) w.
Let decoded : ptr error * Handler :=
  HandleJSON env (Completion.Stdout done) (NewMetricsHandler env).

(** The whole effect of a run that ends well, on stats that are there. *)
Lemma RunGovulncheckCmd_run_ok (s : ScanStats.t) :
  Run_err done = nil ->
  run (Some s)
  = (match fst decoded with
     | Some err => Returns ([], Some err)
     | None => Returns (Findings env (snd decoded), nil)
     end,
     Some (ScanStats.mk (Duration_Seconds (Completion.elapsed done))
                        (getMemoryUsage env cmd done)
                        (ScanStats.BuildTime s)),
     mkWorld (clock w + Completion.elapsed done)
             (events w ++ [EvRun cmd; EvGetMemoryUsage cmd;
                           EvHandleJSON (Completion.Stdout done)])).
Proof.
  intros Hok. subst run decoded done cmd. unfold RunGovulncheckCmd.
  cbn -[Duration_Seconds]. rewrite Hok. cbn -[Duration_Seconds].
  replace (clock w + _ - clock w) with
    (Completion.elapsed
       (os_run env (govulncheckCmd env govulncheckPath modeFlag pattern
                                   moduleDir vulndbDir))) by lia.
  destruct (HandleJSON env _ _) as [[err|] handler]; cbn -[Duration_Seconds];
    rewrite <- !app_assoc; reflexivity.
Qed.

(** X5: after a run that ends well, the stats hold the seconds the run
    took, whatever the clock showed when it started, and the memory that
    [getMemoryUsage] reports for it; the build time is left as it was.
    This is so whether or not the output then decodes. *)
Theorem RunGovulncheckCmd_stats (s : ScanStats.t) :
  Run_err done = nil ->
  snd (fst (run (Some s)))
  = Some (ScanStats.mk (Duration_Seconds (Completion.elapsed done))
                       (getMemoryUsage env cmd done)
                       (ScanStats.BuildTime s)).
Proof. intros Hok. rewrite (RunGovulncheckCmd_run_ok s Hok). reflexivity. Qed.

(** X6: after a run that ends well, the function returns the findings
    the handler holds once the decoder has read the captured standard
    output, with no error; if the decoder fails, it returns the decoder's
    error and no findings, also not those the handler had collected. *)
Theorem RunGovulncheckCmd_findings (s : ScanStats.t) :
  Run_err done = nil ->
  (fst decoded = nil ->
   fst (fst (run (Some s))) = Returns (Findings env (snd decoded), nil)) /\
  (forall err : error,
     fst decoded = Some err ->
     fst (fst (run (Some s))) = Returns ([], Some err)).
Proof.
  intros Hok. rewrite (RunGovulncheckCmd_run_ok s Hok). cbn. split.
  - intros ->. reflexivity.
  - intros err ->. reflexivity.
Qed.

(** X8: a nil [stats] is harmless only when the run fails: after a run
    that ends well the function panics on it, before memory is read or
    anything is decoded; after a failed run it returns the error as
    usual. *)
Theorem RunGovulncheckCmd_nil_stats :
  (Run_err done = nil ->
   fst (fst (run nil)) = Panics NilDereference /\
   events (snd (run nil)) = (events w ++ [EvRun cmd])%list) /\
  (forall err : error,
     Run_err done = Some err ->
     fst (fst (run nil))
     = Returns ([], Some (errors_New (Completion.Stderr done)))).
Proof.
  split.
  - intros Hok. subst run decoded done cmd. unfold RunGovulncheckCmd.
    cbn -[Duration_Seconds]. rewrite Hok. split; reflexivity.
  - intros err Herr. subst run. cbv beta.
    rewrite (RunGovulncheckCmd_run_error env _ _ _ _ _ nil w err Herr).
    reflexivity.
Qed.

(** X9: whatever error the run ends with, the error returned has the
    text of standard error and nothing of the run's own error; so when
    the command fails without writing to standard error, as when it
    cannot be started, the returned error has the empty text, and a
    Result it is added to has an empty Error. *)
Theorem RunGovulncheckCmd_error_text
        (CategorizeError : error -> string) (vr : Result.t)
        (stats : ptr ScanStats.t) (cause : error) :
  Run_err done = Some cause ->
  exists err : error,
    fst (fst (run stats)) = Returns ([], Some err) /\
    Error err = Completion.Stderr done /\
    (Completion.Stderr done = "" ->
     Result.Error (Result.AddError CategorizeError vr (Some err)) = "").
Proof.
  intros Hcause. subst run. cbv beta.
  rewrite (RunGovulncheckCmd_run_error env _ _ _ _ _ stats w cause Hcause).
  eexists. split; [reflexivity|]. split; [reflexivity|].
  intros Hempty. cbn. exact Hempty.
Qed.

(** X10: on Windows the URI does not depend on which of the two
    separators the directory is written with, and it is as long as the
    directory and the eight bytes before it; on other systems no byte of
    the directory is changed, a backslash neither. *)
Theorem uri_separators :
  (GOOS env = "windows" ->
   uri env (ReplaceAll vulndbDir "/"%char backslash) = uri env vulndbDir /\
   uri env (ReplaceAll vulndbDir backslash "/"%char) = uri env vulndbDir /\
   String.length (uri env vulndbDir) = (8 + String.length vulndbDir)%nat) /\
  (GOOS env <> "windows" ->
   substring 7 (String.length vulndbDir) (uri env vulndbDir) = vulndbDir).
Proof.
  split.
  - intros Hwin. unfold uri, ToSlash, Separator. rewrite Hwin. cbn.
    assert (Hboth : forall s,
              ReplaceAll (ReplaceAll s "/"%char backslash) backslash "/"%char
              = ReplaceAll s backslash "/"%char).
    { induction s as [|c s IH]; cbn; [reflexivity|]. rewrite IH. f_equal.
      destruct (Ascii.eqb_spec c "/"%char) as [-> | Hc]; [reflexivity|].
      reflexivity. }
    assert (Hidem : forall s,
              ReplaceAll (ReplaceAll s backslash "/"%char) backslash "/"%char
              = ReplaceAll s backslash "/"%char).
    { induction s as [|c s IH]; cbn; [reflexivity|]. rewrite IH. f_equal.
      destruct (Ascii.eqb_spec c backslash) as [-> | Hc]; [reflexivity|].
      apply Ascii.eqb_neq in Hc. rewrite Hc. reflexivity. }
    assert (Hlen : forall s,
              String.length (ReplaceAll s backslash "/"%char) = String.length s).
    { induction s as [|c s IH]; cbn; [reflexivity | now rewrite IH]. }
    rewrite Hboth, Hidem, Hlen. repeat split.
  - intros Hother. unfold uri. apply String.eqb_neq in Hother. rewrite Hother.
    cbn. apply substring_all.
Qed.

End MoreRunner.

Lemma RunGovulncheckCmd_stats_witness :
  snd (fst (runState
              (RunGovulncheckCmd (env_of scan_done true) "govulncheck" FlagSource
                                 "./..." "" "/vulndb"
                                 (Some (ScanStats.mk PrimFloat.zero 0 7)))
              (mkWorld 1000 [])))
  = Some (ScanStats.mk 2.5%float 20480 7).
Proof.
  exact (RunGovulncheckCmd_stats (env_of scan_done true) "govulncheck" FlagSource
           "./..." "" "/vulndb" (mkWorld 1000 [])
           (ScanStats.mk PrimFloat.zero 0 7) eq_refl).
Defined.

Lemma RunGovulncheckCmd_findings_witness :
  fst (fst (runState
              (RunGovulncheckCmd (env_of scan_done false) "govulncheck" FlagSource
                                 "./..." "" "/vulndb" (Some Samples.stats_zero))
              Samples.world0))
  = Returns ([Some Samples.finding_called], nil) /\
  fst (fst (runState
              (RunGovulncheckCmd (env_of scan_done true) "govulncheck" FlagSource
                                 "./..." "" "/vulndb" (Some Samples.stats_zero))
              Samples.world0))
  = Returns ([], Some (errors_New "invalid character")).
Proof.
  split.
  - apply (proj1 (RunGovulncheckCmd_findings (env_of scan_done false) "govulncheck"
                    FlagSource "./..." "" "/vulndb" Samples.world0
                    Samples.stats_zero eq_refl)).
    reflexivity.
  - apply (proj2 (RunGovulncheckCmd_findings (env_of scan_done true) "govulncheck"
                    FlagSource "./..." "" "/vulndb" Samples.world0
                    Samples.stats_zero eq_refl)).
    reflexivity.
Defined.

Lemma RunGovulncheckCmd_nil_stats_witness :
  fst (fst (runState
              (RunGovulncheckCmd (env_of scan_done false) "govulncheck" FlagSource
                                 "./..." "" "/vulndb" nil)
              Samples.world0))
  = Panics NilDereference /\
  fst (fst (runState
              (RunGovulncheckCmd (Samples.env_failing "linux") "govulncheck"
                                 FlagSource "./..." "" "/vulndb" nil)
              Samples.world0))
  = Returns ([], Some (errors_New "db unreachable")).
Proof.
  split.
  - exact (proj1 (proj1 (RunGovulncheckCmd_nil_stats (env_of scan_done false)
                           "govulncheck" FlagSource "./..." "" "/vulndb"
                           Samples.world0)
                        eq_refl)).
  - exact (proj2 (RunGovulncheckCmd_nil_stats (Samples.env_failing "linux")
                    "govulncheck" FlagSource "./..." "" "/vulndb" Samples.world0)
                 (ExitError 1) eq_refl).
Defined.

Lemma RunGovulncheckCmd_error_text_witness :
  exists err : error,
    fst (fst (runState
                (RunGovulncheckCmd (env_of scan_not_started false) "govulncheck"
                                   FlagSource "./..." "" "/vulndb"
                                   (Some Samples.stats_zero))
                Samples.world0))
    = Returns ([], Some err) /\
    Result.Error (Result.AddError Samples.categorize Samples.result_clean (Some err))
    = "".
Proof.
  destruct (RunGovulncheckCmd_error_text (env_of scan_not_started false)
              "govulncheck" FlagSource "./..." "" "/vulndb" Samples.world0
              Samples.categorize Samples.result_clean (Some Samples.stats_zero)
              (errors_New "executable file not found") eq_refl)
    as [err [Hret [_ Hempty]]].
  exists err. split; [exact Hret | exact (Hempty eq_refl)].
Defined.

Lemma uri_separators_witness :
  uri (Samples.env_failing "windows") "C:/vulndb/go"
  = uri (Samples.env_failing "windows") "C:\vulndb\go" /\
  substring 7 11 (uri (Samples.env_failing "linux") "\var\vulndb") = "\var\vulndb".
Proof.
  split.
  - exact (proj1 (proj2 (proj1 (uri_separators (Samples.env_failing "windows")
                            "C:\vulndb\go")
                         eq_refl))).
  - apply (proj2 (uri_separators (Samples.env_failing "linux") "\var\vulndb")).
    discriminate.
Defined.
